(** * Tag Team Image Analysis API: the [/analyze] handler of [main.py]

    A shallow embedding of [analyze_image] (main.py, lines 48-147) and of the
    Python operations it relies on, followed by the properties of the
    two-stage pipeline: validation order, per-stage error mapping, prompt
    construction, the outer catch-all and replay determinism.

    The handler is effectful: it reads the upload, calls two remote models,
    writes log records and raises exceptions.  Effects are threaded through
    a state-and-exception monad over a [world] that holds the log, the list
    of collaborator calls made so far and the state of the remote side. *)

From Stdlib Require Import List ZArith NArith Bool String Ascii Lia.
From Stdlib Require Import Strings.Byte.
From Stdlib Require Import PrimFloat DecimalString.
Import ListNotations.

Set Warnings "-inexact-float".

(** ** Python strings *)

(** A Python [str] is a sequence of Unicode code points; [bytes] is a
    sequence of octets. *)
Definition str := list N.
Definition bytes := list byte.

(** A string literal of the source (all of them are ASCII). *)
Definition py (s : string) : str :=
  map N_of_ascii (list_ascii_of_string s).
Arguments py s : simpl never.

(** [c.isspace()] for one code point: CPython's [_PyUnicode_IsWhitespace]. *)
Definition isspace (c : N) : bool :=
  ((9 <=? c) && (c <=? 13)        (* \t \n \v \f \r *)
   || (28 <=? c) && (c <=? 32)    (* FS GS RS US and the space *)
   || (c =? 133) || (c =? 160)    (* NEL, no-break space *)
   || (c =? 5760)                 (* U+1680 *)
   || (8192 <=? c) && (c <=? 8202)  (* U+2000 .. U+200A *)
   || (c =? 8232) || (c =? 8233)  (* U+2028, U+2029 *)
   || (c =? 8239) || (c =? 8287)  (* U+202F, U+205F *)
   || (c =? 12288))%N.            (* U+3000 *)

(** [s.lstrip()], [s.rstrip()] and [s.strip()] with no argument. *)
Fixpoint lstrip (s : str) : str :=
  match s with
  | [] => []
  | c :: t => if isspace c then lstrip t else s
  end.

Definition rstrip (s : str) : str := rev (lstrip (rev s)).

Definition strip (s : str) : str := rstrip (lstrip s).

(** [s.startswith(prefix)]. *)
Fixpoint startswith (s prefix : str) {struct prefix} : bool :=
  match prefix, s with
  | [], _ => true
  | _ :: _, [] => false
  | p :: ps, c :: cs => (p =? c)%N && startswith cs ps
  end.

(** [x in s] for two strings. *)
Fixpoint contains (s x : str) : bool :=
  startswith s x ||
  match s with
  | [] => false
  | _ :: t => contains t x
  end.

(** The same relation as a proposition: [x] occurs inside [s]. *)
Definition substring (x s : str) : Prop :=
  exists pre post, s = pre ++ x ++ post.

(** [str(n)] for an integer. *)
Definition str_of_int (n : Z) : str :=
  py (NilZero.string_of_int (Z.to_int n)).

(** ** Python values and exceptions *)

(** Exceptions.  [HTTPException] is FastAPI's; [Exception] stands for an
    instance of any other class below [Exception], with its class name and
    the text [str(e)] returns; [BaseException] for an instance of a class
    outside [Exception] ([asyncio.CancelledError], [KeyboardInterrupt],
    [SystemExit]). *)
Inductive exc : Type :=
| HTTPException (status_code : Z) (detail : str)
| Exception (class_name : str) (text : str)
| BaseException (class_name : str) (text : str).

(** The classes named in the handler's [except] clauses. *)
Inductive exc_class : Type := cHTTPException | cException.

(** [isinstance(e, cls)]: [HTTPException] is a subclass of [Exception]. *)
Definition isinstance (e : exc) (cls : exc_class) : bool :=
  match cls, e with
  | cHTTPException, HTTPException _ _ => true
  | cHTTPException, _ => false
  | cException, BaseException _ _ => false
  | cException, _ => true
  end.

(** [str(e)], also what [f"{e}"] formats.  For [HTTPException] it is
    Starlette's [__str__], ["<status_code>: <detail>"]. *)
Definition str_of (e : exc) : str :=
  match e with
  | HTTPException s d => str_of_int s ++ py ": " ++ d
  | Exception _ t => t
  | BaseException _ t => t
  end.

(** The result of running a piece of Python: a value, or a raised
    exception. *)
Inductive outcome (A : Type) : Type :=
| Ok (a : A)
| Raise (e : exc).
Arguments Ok {A} a.
Arguments Raise {A} e.

(** The objects the handler receives from its collaborators and puts in its
    response: [None], a [str], a [bytes], or an instance of some other
    class.  Python is duck typed, so the handler sees of such an object
    what it uses of it: the name of its type, its [strip] attribute
    (absent, or a method whose call returns an object or raises) and the
    text an f-string formats it to. *)
#[warnings="-register-all"]
Inductive value : Type :=
| VNone
| VStr (s : str)
| VBytes (b : bytes)
| VObject (type_name : str) (strip_method : option (outcome value))
          (formatted : str).

Definition type_name_of (v : value) : str :=
  match v with
  | VNone => py "NoneType"
  | VStr _ => py "str"
  | VBytes _ => py "bytes"
  | VObject n _ _ => n
  end.

(** A Python [dict] with string keys, in insertion order. *)
Definition dict := list (str * value).

(** [AttributeError] of a failed attribute lookup [v.attr]. *)
Definition AttributeError (v : value) (attr : string) : exc :=
  Exception (py "AttributeError")
    (py "'" ++ type_name_of v ++ py "' object has no attribute '"
       ++ py attr ++ py "'").

(** [IndexError] of [l[0]] on an empty list. *)
Definition IndexError : exc :=
  Exception (py "IndexError") (py "list index out of range").

(** *** [bytes] *)

(** [b.strip()] with no argument removes ASCII whitespace: the space and
    [\t \n \v \f \r]. *)
Definition bytes_isspace (c : byte) : bool :=
  let n := Byte.to_N c in ((9 <=? n) && (n <=? 13) || (n =? 32))%N.

Fixpoint bytes_lstrip (b : bytes) : bytes :=
  match b with
  | [] => []
  | c :: t => if bytes_isspace c then bytes_lstrip t else b
  end.

Definition bytes_strip (b : bytes) : bytes :=
  rev (bytes_lstrip (rev (bytes_lstrip b))).

Definition hex_digit (n : N) : N :=
  (if n <? 10 then 48 + n else 87 + n)%N.

(** [repr(b)], which is also [str(b)] and what an f-string formats [b]
    to: [b'...'], in double quotes when [b] holds a single quote and no
    double one, with backslash escapes. *)
Definition bytes_repr (b : bytes) : str :=
  let cs := map Byte.to_N b in
  let has c := existsb (N.eqb c) cs in
  let quote := (if has 39 && negb (has 34) then 34 else 39)%N in
  let escape c :=
    (if (c =? quote) || (c =? 92) then [92; c]
     else if c =? 9 then [92; 116]
     else if c =? 10 then [92; 110]
     else if c =? 13 then [92; 114]
     else if (c <? 32) || (127 <=? c)
          then [92; 120; hex_digit (c / 16); hex_digit (c mod 16)]
          else [c])%N in
  [98; quote]%N ++ flat_map escape cs ++ [quote].

(** *** What line 94 and the f-strings use of a value *)


(** [v.strip()]: the trimmed string or bytes, what the object's own
    [strip] does, or the [AttributeError] of the lookup. *)
Definition strip_result (v : value) : outcome value :=
  match v with
  | VStr s => Ok (VStr (strip s))
  | VBytes b => Ok (VBytes (bytes_strip b))
  | VObject _ (Some result) _ => result
  | VNone | VObject _ None _ => Raise (AttributeError v "strip")
  end.

(** [f"{v}"]. *)
Definition format_value (v : value) : str :=
  match v with
  | VNone => py "None"
  | VStr s => s
  | VBytes b => bytes_repr b
  | VObject _ _ text => text
  end.

(** ** The chat-completion interface *)

(** One entry of [messages]: [{"role": ..., "content": ...}]. *)
Record message : Type := { role : str; content : str }.

(** The response of [chat_completion], as far as line 125 reads it:
    [response.choices[0].message.content]. *)
Record ChatCompletionOutputMessage : Type :=
  { message_content : option str }.
Record ChatCompletionOutputComplete : Type :=
  { choice_message : ChatCompletionOutputMessage }.
Record ChatCompletionOutput : Type :=
  { choices : list ChatCompletionOutputComplete }.

(** ** Module-level constants (lines 22-23) *)

Definition VISION_MODEL : str := py "microsoft/Florence-2-large".
Definition LOGIC_MODEL : str := py "Qwen/Qwen2.5-3B-Instruct".

Definition HTTP_200_OK : Z := 200.
Definition HTTP_400_BAD_REQUEST : Z := 400.
Definition HTTP_500_INTERNAL_SERVER_ERROR : Z := 500.
Definition HTTP_503_SERVICE_UNAVAILABLE : Z := 503.

(** The two keyword arguments of line 121-122. *)
Definition max_tokens : Z := 500.
Definition temperature : float := 0.7%float.

(** ** The world the handler runs in *)

Inductive level : Type := INFO | WARNING | ERROR.

(** A call to a collaborator, with its arguments. *)
Inductive call : Type :=
| FileRead
| ImageToText (image : bytes) (model : str)
| ChatCompletion (model : str) (messages : list message)
                 (max_tokens : Z) (temperature : float).

Section Handler.

(** The state of the remote inference service (load, sampling seed, ...):
    whatever its answers may depend on besides the arguments. *)
Context {U : Type}.

(** [log]: the records written through [logger]; [calls]: the
    collaborator calls made, oldest first; [upstream]: the remote side. *)
Record world : Type :=
  { log : list (level * str); calls : list call; upstream : U }.

(** The inference client: each operation answers from its arguments and
    the remote state, and may raise. *)
Record client : Type :=
  { image_to_text : bytes -> str -> U -> outcome value * U;
    chat_completion :
      str -> list message -> Z -> float -> U ->
      outcome ChatCompletionOutput * U }.

(** The module globals the handler reads: [HF_API_KEY] (line 19) and
    [hf_client] (line 26, [None] until [lifespan] assigns it). *)
Record globals : Type :=
  { HF_API_KEY : option str; hf_client : option client }.

(** The upload: its declared content type (absent when the part carries
    no Content-Type header) and what [await file.read()] yields. *)
Record UploadFile : Type :=
  { filename : option str;
    content_type : option str;
    read : outcome bytes }.

(** The three ways a step changes the world. *)
Definition logged (l : level) (msg : str) (w : world) : world :=
  {| log := log w ++ [(l, msg)]; calls := calls w; upstream := upstream w |}.

Definition called (c : call) (w : world) : world :=
  {| log := log w; calls := calls w ++ [c]; upstream := upstream w |}.

Definition with_upstream (u : U) (w : world) : world :=
  {| log := log w; calls := calls w; upstream := u |}.

(** *** The monad *)

Definition M (A : Type) : Type := world -> outcome A * world.

Definition ret {A} (a : A) : M A := fun w => (Ok a, w).

Definition bind {A B} (m : M A) (k : A -> M B) : M B :=
  fun w =>
    match m w with
    | (Ok a, w') => k a w'
    | (Raise e, w') => (Raise e, w')
    end.

Definition raise {A} (e : exc) : M A := fun w => (Raise e, w).

(** [try: m except cls1 as e: h1 e except cls2 as e: h2 e ...]: the first
    clause whose class matches handles the exception; with none, it
    propagates.  What a handler raises is not caught by its siblings. *)
Fixpoint dispatch {A} (clauses : list (exc_class * (exc -> M A)))
         (e : exc) : M A :=
  match clauses with
  | [] => raise e
  | (cls, h) :: rest => if isinstance e cls then h e else dispatch rest e
  end.

Definition try_except {A} (m : M A)
           (clauses : list (exc_class * (exc -> M A))) : M A :=
  fun w =>
    match m w with
    | (Ok a, w') => (Ok a, w')
    | (Raise e, w') => dispatch clauses e w'
    end.

Definition lift {A} (o : outcome A) : M A := fun w => (o, w).

(** Note a collaborator call in the trace. *)
Definition record (c : call) : M unit := fun w => (Ok tt, called c w).

(** [logger.info(msg)], [logger.error(msg)]. *)
Definition logger (l : level) (msg : str) : M unit :=
  fun w => (Ok tt, logged l msg w).

(** A remote operation: runs against the state of the remote side. *)
Definition remote {A} (op : U -> outcome A * U) : M A :=
  fun w => let (o, u) := op (upstream w) in (o, with_upstream u w).

End Handler.

Arguments world U : clear implicits.
Arguments client U : clear implicits.
Arguments globals U : clear implicits.
Arguments M U A : clear implicits.

Declare Scope py_scope.
Delimit Scope py_scope with py.
Notation "x <- c ;; k" := (bind c (fun x => k))
  (at level 61, c at next level, right associativity) : py_scope.
Notation "c ;; k" := (bind c (fun _ => k))
  (at level 61, right associativity) : py_scope.
Notation "'try' m 'except' cs" := (try_except m cs)
  (at level 60, m at level 61, cs at level 0) : py_scope.

Local Open Scope py_scope.

Section Analyze.

Context {U : Type}.

(** *** The handler's steps *)

(** [not HF_API_KEY] is false exactly for a non-empty string. *)
Definition truthy (v : option str) : bool :=
  match v with
  | None => false
  | Some [] => false
  | Some (_ :: _) => true
  end.

(** [file.content_type.startswith("image/")] (line 61): the attribute
    lookup on [None] raises [AttributeError]. *)
Definition content_type_startswith (file : UploadFile) (prefix : str)
  : M U bool :=
  match content_type file with
  | None => raise (AttributeError VNone "startswith")
  | Some ct => ret (startswith ct prefix)
  end.

(** [await file.read()] (line 69). *)
Definition file_read (file : UploadFile) : M U bytes :=
  record FileRead ;;
  lift (read file).

(** [await hf_client.image_to_text(image=..., model=...)] (lines 85-88). *)
Definition call_image_to_text (g : globals U) (image : bytes) (model : str)
  : M U value :=
  match hf_client g with
  | None => raise (AttributeError VNone "image_to_text")
  | Some c =>
      record (ImageToText image model) ;;
      remote (image_to_text c image model)
  end.

(** [vision_result.strip()] (line 94): whatever [strip] the object has. *)
Definition value_strip (v : value) : M U value :=
  lift (strip_result v).

(** [await hf_client.chat_completion(model=..., messages=...,
    max_tokens=..., temperature=...)] (lines 118-123). *)
Definition call_chat_completion (g : globals U) (model : str)
           (messages : list message) (max_tokens : Z) (temperature : float)
  : M U ChatCompletionOutput :=
  match hf_client g with
  | None => raise (AttributeError VNone "chat_completion")
  | Some c =>
      record (ChatCompletion model messages max_tokens temperature) ;;
      remote (chat_completion c model messages max_tokens temperature)
  end.

(** [response.choices[0].message.content] (line 125). *)
Definition first_choice_content (response : ChatCompletionOutput)
  : M U (option str) :=
  match choices response with
  | [] => raise IndexError
  | c :: _ => ret (message_content (choice_message c))
  end.

(** The f-string of lines 105-108, around the text [image_description] is
    formatted to. *)
Definition build_prompt (image_description : str) : str :=
  py "User uploaded an image containing this text: " ++ image_description
  ++ py ". "
  ++ py "Act as a helpful assistant and answer the user's request based on this.".

Definition value_of_option (o : option str) : value :=
  match o with
  | None => VNone
  | Some s => VStr s
  end.

(** Stage 1, the inner [try] of lines 84-102. *)
Definition vision_stage (g : globals U) (image_content : bytes)
  : M U value :=
  try (
    vision_result <- call_image_to_text g image_content VISION_MODEL ;;
    image_description <- value_strip vision_result ;;
    logger INFO (py "Vision Model Output: "
                 ++ format_value image_description) ;;
    ret image_description
  ) except [
    (cException, fun e =>
      logger ERROR (py "Vision Model failed: " ++ str_of e) ;;
      raise (HTTPException HTTP_503_SERVICE_UNAVAILABLE
               (py "Vision model service failed: " ++ str_of e)))
  ].

(** Stage 2, the inner [try] of lines 116-133. *)
Definition logic_stage (g : globals U) (messages : list message)
  : M U (option str) :=
  try (
    response <- call_chat_completion g LOGIC_MODEL messages
                  max_tokens temperature ;;
    final_answer <- first_choice_content response ;;
    logger INFO (py "Logic Model response received.") ;;
    ret final_answer
  ) except [
    (cException, fun e =>
      logger ERROR (py "Logic Model failed: " ++ str_of e) ;;
      raise (HTTPException HTTP_503_SERVICE_UNAVAILABLE
               (py "Logic model service failed: " ++ str_of e)))
  ].

(** *** [analyze_image] (lines 48-147) *)

Definition analyze_image (g : globals U) (file : UploadFile) : M U dict :=
  if negb (truthy (HF_API_KEY g)) then
    raise (HTTPException HTTP_500_INTERNAL_SERVER_ERROR
             (py "Server configuration error: HF_API_KEY is missing."))
  else
  is_image <- content_type_startswith file (py "image/") ;;
  if negb is_image then
    raise (HTTPException HTTP_400_BAD_REQUEST
             (py "Invalid file type. Please upload an image."))
  else
  try (
    image_content <- file_read file ;;
    logger INFO (py "Sending image to Vision Model: " ++ VISION_MODEL) ;;
    image_description <- vision_stage g image_content ;;
    let prompt := build_prompt (format_value image_description) in
    logger INFO (py "Sending prompt to Logic Model: " ++ LOGIC_MODEL) ;;
    let messages := [ {| role := py "user"; content := prompt |} ] in
    final_answer <- logic_stage g messages ;;
    ret [ (py "vision_output", image_description);
          (py "final_answer", value_of_option final_answer) ]
  ) except [
    (cHTTPException, fun he => raise he);
    (cException, fun e =>
      logger ERROR (py "Unexpected error: " ++ str_of e) ;;
      raise (HTTPException HTTP_500_INTERNAL_SERVER_ERROR
               (py "An unexpected error occurred processing your request.")))
  ].

End Analyze.

(** ** The HTTP response *)

Record response : Type := { status : Z; body : dict }.

(** Modelled from the spec: the framework's rendering of the handler's
    outcome, which is not part of main.py.  A returned dict is sent as
    [200] with that JSON body; an [HTTPException] as its status code with
    body [{"detail": detail}]; any other exception leaves the handler
    without a response of its own. *)
Definition respond (o : outcome dict) : option response :=
  match o with
  | Ok d => Some {| status := HTTP_200_OK; body := d |}
  | Raise (HTTPException s d) =>
      Some {| status := s; body := [ (py "detail", VStr d) ] |}
  | Raise _ => None
  end.

(** One request served from world [w]: the response and the world after. *)
Definition serve {U} (g : globals U) (file : UploadFile) (w : world U)
  : option response * world U :=
  let (o, w') := analyze_image g file w in (respond o, w').

(** [a == b] on strings, and [d.get(k)]. *)
Fixpoint str_eqb (a b : str) : bool :=
  match a, b with
  | [], [] => true
  | x :: a', y :: b' => (x =? y)%N && str_eqb a' b'
  | _, _ => false
  end.

Fixpoint dict_get (d : dict) (k : str) : option value :=
  match d with
  | [] => None
  | (k', v) :: rest => if str_eqb k' k then Some v else dict_get rest k
  end.

(** A client whose answers depend on the arguments only, not on the state
    of the remote side: a deterministic stub. *)
Definition deterministic {U} (c : client U) : Prop :=
  (forall image model u u',
      fst (image_to_text c image model u)
      = fst (image_to_text c image model u'))
  /\ (forall model messages mt t u u',
      fst (chat_completion c model messages mt t u)
      = fst (chat_completion c model messages mt t u')).

(** The calls of a trace that are stage-1 or stage-2 inference calls. *)
Definition is_inference_call (c : call) : bool :=
  match c with
  | FileRead => false
  | ImageToText _ _ => true
  | ChatCompletion _ _ _ _ => true
  end.

Definition is_logic_call (c : call) : bool :=
  match c with
  | ChatCompletion _ _ _ _ => true
  | _ => false
  end.

(** The three fixed [detail] texts of the handler. *)
Definition detail_misconfigured : str :=
  py "Server configuration error: HF_API_KEY is missing.".
Definition detail_invalid_input : str :=
  py "Invalid file type. Please upload an image.".
Definition detail_internal : str :=
  py "An unexpected error occurred processing your request.".

(** ** The worlds and values along a run *)

(** The conversation of lines 112-114 and the dict of lines 135-138. *)
Definition user_message (image_description : str) : list message :=
  [ {| role := py "user"; content := build_prompt image_description |} ].

Definition success_body (image_description : str) (final_answer : option str)
  : dict :=
  [ (py "vision_output", VStr image_description);
    (py "final_answer", value_of_option final_answer) ].

(** The stage-2 call made for a stage-1 result [s]. *)
Definition logic_call (s : str) : call :=
  ChatCompletion LOGIC_MODEL (user_message (strip s)) max_tokens temperature.

(** The world when stage 1 starts: the file was read, one record logged. *)
Definition at_vision {U} (w : world U) : world U :=
  logged INFO (py "Sending image to Vision Model: " ++ VISION_MODEL)
         (called FileRead w).

(** The world once the stage-1 call was made and left the remote side in
    [u1]. *)
Definition vision_called {U} (w : world U) (image : bytes) (u1 : U)
  : world U :=
  with_upstream u1 (called (ImageToText image VISION_MODEL) (at_vision w)).

(** The world stage 1 leaves behind when the call returned [s]. *)
Definition after_vision {U} (w : world U) (image : bytes) (s : str) (u1 : U)
  : world U :=
  logged INFO (py "Vision Model Output: " ++ strip s)
         (vision_called w image u1).

(** The world when stage 2 starts, after stage 1 left [w1]. *)
Definition at_logic {U} (w1 : world U) : world U :=
  logged INFO (py "Sending prompt to Logic Model: " ++ LOGIC_MODEL) w1.

(** The world once the stage-2 call for [s] was made and left the remote
    side in [u2]. *)
Definition logic_called {U} (w : world U) (image : bytes) (s : str)
           (u1 u2 : U) : world U :=
  with_upstream u2
    (called (logic_call s) (at_logic (after_vision w image s u1))).

(** The same along a run whose stage-1 result stripped to any object [d]:
    the dict returned, the stage-2 call, and the worlds after stage 1 and
    after the stage-2 call.  For [d] the text [strip s] they are
    [success_body], [logic_call], [after_vision] and [logic_called]. *)
Definition body_of (image_description : value) (final_answer : option str)
  : dict :=
  [ (py "vision_output", image_description);
    (py "final_answer", value_of_option final_answer) ].

Definition logic_call_of (d : value) : call :=
  ChatCompletion LOGIC_MODEL (user_message (format_value d))
                 max_tokens temperature.

Definition after_strip {U} (w : world U) (image : bytes) (d : value)
           (u1 : U) : world U :=
  logged INFO (py "Vision Model Output: " ++ format_value d)
         (vision_called w image u1).

Definition logic_called_of {U} (w : world U) (image : bytes) (d : value)
           (u1 u2 : U) : world U :=
  with_upstream u2
    (called (logic_call_of d) (at_logic (after_strip w image d u1))).

(** The number of calls of a trace that satisfy [p]. *)
Definition call_count (p : call -> bool) (trace : list call) : nat :=
  List.length (filter p trace).

(** The traces one run of the handler can add: nothing, the read alone,
    the read and the stage-1 call, or these and the stage-2 call. *)
Definition trace_shape (new : list call) : Prop :=
  new = []
  \/ new = [FileRead]
  \/ (exists image, new = [FileRead; ImageToText image VISION_MODEL])
  \/ (exists image d,
        new = [FileRead; ImageToText image VISION_MODEL;
               ChatCompletion LOGIC_MODEL (user_message d)
                              max_tokens temperature]).

(** The status and detail pairs the handler itself produces. *)
Definition handler_detail (status : Z) (detail : str) : Prop :=
  (status = 500%Z /\ detail = detail_misconfigured)
  \/ (status = 400%Z /\ detail = detail_invalid_input)
  \/ (status = 500%Z /\ detail = detail_internal)
  \/ (status = 503%Z
      /\ exists e, detail = py "Vision model service failed: " ++ str_of e)
  \/ (status = 503%Z
      /\ exists e, detail = py "Logic model service failed: " ++ str_of e).

(** ** Stubs and uploads for concrete runs *)

Module Stub.

Definition png : bytes := [x89; x50; x4e; x47].

Definition upload (ct : option str) : UploadFile :=
  {| filename := Some (py "photo.png"); content_type := ct; read := Ok png |}.

Definition png_upload : UploadFile := upload (Some (py "image/png")).
Definition text_upload : UploadFile := upload (Some (py "text/plain")).
Definition untyped_upload : UploadFile := upload None.

(** An upload whose read fails. *)
Definition broken_upload : UploadFile :=
  {| filename := None; content_type := Some (py "image/jpeg");
     read := Raise (Exception (py "OSError") (py "disk unreadable")) |}.

Definition reply (a : option str) : ChatCompletionOutput :=
  {| choices := [ {| choice_message := {| message_content := a |} |} ] |}.

(** Stage 1 answers [caption]; stage 2 answers [answer] to any prompt that
    contains [needle], and fails on the others. *)
Definition pipeline (caption needle answer : str) : client unit :=
  {| image_to_text := fun _ _ u => (Ok (VStr caption), u);
     chat_completion := fun _ messages _ _ u =>
       (if existsb (fun m => contains (content m) needle) messages
        then Ok (reply (Some answer))
        else Raise (Exception (py "ValueError") (py "unexpected prompt")), u) |}.

Definition cat_client : client unit :=
  pipeline (py "a cat sitting on a mat") (py "a cat sitting on a mat")
           (py "The cat is on the mat.").

Definition bicycle_client : client unit :=
  pipeline (py "  a red bicycle  ") (py "a red bicycle") (py "It is red.").

(** Stage 1 is down. *)
Definition vision_down : client unit :=
  {| image_to_text := fun _ _ u =>
       (Raise (Exception (py "InferenceTimeoutError")
                         (py "vision upstream timed out")), u);
     chat_completion := fun _ _ _ _ u => (Ok (reply (Some (py "unused"))), u) |}.

(** Stage 1 works, stage 2 is down. *)
Definition logic_down : client unit :=
  {| image_to_text := fun _ _ u => (Ok (VStr (py "a street sign")), u);
     chat_completion := fun _ _ _ _ u =>
       (Raise (Exception (py "HfHubHTTPError") (py "502 Bad Gateway")), u) |}.

(** Stage 2 answers with a message that has no textual content. *)
Definition no_content : client unit :=
  {| image_to_text := fun _ _ u => (Ok (VStr (py "a street sign")), u);
     chat_completion := fun _ _ _ _ u => (Ok (reply None), u) |}.

(** A remote side whose caption depends on its own state, which every
    stage-1 call advances: not a deterministic stub. *)
Definition moody : client nat :=
  {| image_to_text := fun _ _ n =>
       (Ok (VStr (if Nat.even n then py "a cat" else py "a dog")), S n);
     chat_completion := fun _ _ _ _ n => (Ok (reply (Some (py "ok"))), n) |}.

Definition configured {U} (c : client U) : globals U :=
  {| HF_API_KEY := Some (py "hf_secret"); hf_client := Some c |}.

Definition unconfigured {U} (c : client U) : globals U :=
  {| HF_API_KEY := None; hf_client := Some c |}.

Definition fresh {U} (u : U) : world U :=
  {| log := []; calls := []; upstream := u |}.

(** The same bytes and content type under another file name, and a world
    that has served a request before. *)
Definition renamed_upload : UploadFile :=
  {| filename := Some (py "copy.png");
     content_type := Some (py "image/png"); read := Ok png |}.

Definition used {U} (u : U) : world U :=
  {| log := [(INFO, py "Logic Model response received.")];
     calls := [FileRead; ImageToText png VISION_MODEL];
     upstream := u |}.

End Stub.

(** ** Startup and shutdown: [lifespan] (lines 28-42) *)

Section Lifespan.

Context {U : Type}.

(** [AsyncInferenceClient(token=...)], the constructor main.py imports from
    [huggingface_hub]: the client it builds for a token. *)
Variable AsyncInferenceClient : option str -> client U.

(** The part of [lifespan] before [yield] (lines 34-39).  The assignment to
    the global [hf_client] is returned as the new globals. *)
Definition lifespan_startup (g : globals U) : M U (globals U) :=
  (if negb (truthy (HF_API_KEY g)) then
     logger WARNING
       (py "HF_API_KEY not found in environment variables. Functionality will be limited.")
   else ret tt) ;;
  let hf_client' := AsyncInferenceClient (HF_API_KEY g) in
  logger INFO (py "Hugging Face client initialized.") ;;
  ret {| HF_API_KEY := HF_API_KEY g; hf_client := Some hf_client' |}.

(** The globals the startup leaves: the secret as it was, the client
    built from it. *)
Definition started (g : globals U) : globals U :=
  {| HF_API_KEY := HF_API_KEY g;
     hf_client := Some (AsyncInferenceClient (HF_API_KEY g)) |}.

(** The part after [yield] (line 42). *)
Definition lifespan_shutdown : M U unit :=
  logger INFO (py "Shutting down application.").

(** The context manager around what runs at its [yield]: [app] gets the
    globals the startup left.  There is no [try] around the [yield], so an
    exception of [app] skips line 42. *)
Definition lifespan {A} (g : globals U) (app : globals U -> M U A) : M U A :=
  g' <- lifespan_startup g ;;
  r <- app g' ;;
  lifespan_shutdown ;;
  ret r.

End Lifespan.

(** ** Counting calls and log records *)

Definition is_read_call (c : call) : bool :=
  match c with
  | FileRead => true
  | _ => false
  end.

Definition is_vision_call (c : call) : bool :=
  match c with
  | ImageToText _ _ => true
  | _ => false
  end.

(** The number of records written at level [ERROR]. *)
Definition error_records (records : list (level * str)) : nat :=
  List.length
    (filter (fun r => match fst r with ERROR => true | _ => false end)
            records).

(** Whether a raised [HTTPException] is one the handler logs at [ERROR]
    before raising it: a stage 503 or the catch-all 500. *)
Definition is_logged_failure (o : outcome dict) : bool :=
  match o with
  | Raise (HTTPException st d) => (st =? 503)%Z || str_eqb d detail_internal
  | _ => false
  end.

(** ** More stubs *)

Module Scenario.


(** Stage 2 answers with an empty list of choices. *)
Definition no_choice : client unit :=
  {| image_to_text := fun _ _ u => (Ok (VStr (py "a street sign")), u);
     chat_completion := fun _ _ _ _ u => (Ok {| choices := [] |}, u) |}.

Definition CancelledError : exc :=
  BaseException (py "CancelledError") (py "").

(** The task is cancelled while it awaits stage 1, or stage 2. *)
Definition cancelled_at_vision : client unit :=
  {| image_to_text := fun _ _ u => (Raise CancelledError, u);
     chat_completion := fun _ _ _ _ u =>
       (Ok (Stub.reply (Some (py "unused"))), u) |}.

Definition cancelled_at_logic : client unit :=
  {| image_to_text := fun _ _ u => (Ok (VStr (py "a street sign")), u);
     chat_completion := fun _ _ _ _ u => (Raise CancelledError, u) |}.

(** Stage 1 answers with blanks only. *)
Definition blank : client unit :=
  {| image_to_text := fun _ _ u => (Ok (VStr [32; 10; 9]%N), u);
     chat_completion := fun _ _ _ _ u =>
       (Ok (Stub.reply (Some (py "I see nothing."))), u) |}.

(** The globals before [lifespan] has run, with the secret set. *)
Definition not_started : globals unit :=
  {| HF_API_KEY := Some (py "hf_secret"); hf_client := None |}.

(** The globals before [lifespan] has run, with no secret. *)
Definition no_secret : globals unit :=
  {| HF_API_KEY := None; hf_client := None |}.

(** An upload of no bytes whose content type is the bare prefix. *)
Definition empty_upload : UploadFile :=
  {| filename := None; content_type := Some (py "image/"); read := Ok [] |}.

(** Uploads whose read raises something that is not a plain [Exception]. *)
Definition cancelled_upload : UploadFile :=
  {| filename := None; content_type := Some (py "image/png");
     read := Raise CancelledError |}.



(** The end-to-end stubs, the caption padded with blanks and a newline. *)
Definition padded_cat : client unit :=
  Stub.pipeline ([32; 32]%N ++ py "a cat sitting on a mat" ++ [32; 10]%N)
                (py "a cat sitting on a mat") (py "The cat is on the mat.").


(** A constructor for [lifespan]: the client does not depend on the
    token. *)
Definition make_client (token : option str) : client unit :=
  Stub.cat_client.

End Scenario.

(** * Properties *)

(** ** Strings *)

Section Strings.

Implicit Types s x p : str.

Lemma startswith_spec s p :
  startswith s p = true <-> exists t, s = p ++ t.
Proof.
  revert s; induction p as [|c p IH]; intros s; simpl.
  - split; [intros _; now exists s | reflexivity].
  - destruct s as [|d s].
    + split; [discriminate | intros [t Ht]; discriminate].
    + rewrite andb_true_iff, N.eqb_eq, IH. split.
      * intros [-> [t ->]]. now exists t.
      * intros [t Ht]. injection Ht as -> ->. split; [reflexivity | now exists t].
Qed.

Lemma contains_spec s x : contains s x = true <-> substring x s.
Proof.
  unfold substring. split.
  - induction s as [|c s IH]; simpl; rewrite orb_true_iff.
    + intros [H | H]; [|discriminate].
      apply startswith_spec in H as [t Ht]. now exists [], t.
    + intros [H | H].
      * apply startswith_spec in H as [t Ht]. now exists [], t.
      * destruct (IH H) as (pre & post & ->). now exists (c :: pre), post.
  - intros (pre & post & ->).
    induction pre as [|c pre IH]; simpl.
    + assert (H : startswith (x ++ post) x = true)
        by (apply startswith_spec; now exists post).
      destruct (x ++ post); simpl in *; rewrite H; reflexivity.
    + rewrite IH. apply orb_true_r.
Qed.

Lemma forallb_rev (f : N -> bool) s : forallb f (rev s) = forallb f s.
Proof.
  induction s as [|c s IH]; simpl; [reflexivity|].
  rewrite forallb_app, IH. simpl. rewrite andb_true_r. apply andb_comm.
Qed.

(** [lstrip] removes a run of whitespace from the front, and all of it. *)
Lemma lstrip_split s :
  exists pre, s = pre ++ lstrip s /\ forallb isspace pre = true.
Proof.
  induction s as [|c s (pre & Hs & Hpre)]; simpl.
  - now exists [].
  - destruct (isspace c) eqn:Hc.
    + exists (c :: pre). simpl. rewrite Hc, Hpre. split; [now f_equal | reflexivity].
    + now exists [].
Qed.

Lemma lstrip_head s c t : lstrip s = c :: t -> isspace c = false.
Proof.
  induction s as [|d s IH]; simpl; [discriminate|].
  destruct (isspace d) eqn:Hd; [exact IH|].
  intros H. injection H as -> _. exact Hd.
Qed.

Lemma rstrip_split s :
  exists post, s = rstrip s ++ post /\ forallb isspace post = true.
Proof.
  unfold rstrip. destruct (lstrip_split (rev s)) as (pre & Hs & Hpre).
  exists (rev pre). split.
  - rewrite <- rev_app_distr, <- Hs. symmetry. apply rev_involutive.
  - now rewrite forallb_rev.
Qed.

Lemma rstrip_last s c t : rev (rstrip s) = c :: t -> isspace c = false.
Proof.
  unfold rstrip. rewrite rev_involutive. apply lstrip_head.
Qed.

(** [strip] takes whitespace, and nothing else, off both ends. *)
Lemma strip_split s :
  exists pre post,
    s = pre ++ strip s ++ post
    /\ forallb isspace pre = true /\ forallb isspace post = true.
Proof.
  destruct (lstrip_split s) as (pre & Hs & Hpre).
  destruct (rstrip_split (lstrip s)) as (post & Hl & Hpost).
  exists pre, post. unfold strip. now rewrite <- Hl.
Qed.

(** What [strip] leaves neither starts nor ends with whitespace. *)
Lemma strip_head s c t : strip s = c :: t -> isspace c = false.
Proof.
  unfold strip. intros H.
  destruct (rstrip_split (lstrip s)) as (post & Hl & _).
  rewrite H in Hl. simpl in Hl. now apply lstrip_head in Hl.
Qed.

Lemma strip_last s c t : rev (strip s) = c :: t -> isspace c = false.
Proof. apply rstrip_last. Qed.

Lemma substring_app_r x pre : substring x (pre ++ x).
Proof. exists pre, []. now rewrite app_nil_r. Qed.

Lemma substring_strip s : substring (strip s) s.
Proof. destruct (strip_split s) as (pre & post & H & _). now exists pre, post. Qed.

Example strip_bicycle : strip (py "  a red bicycle  ") = py "a red bicycle".
Proof. reflexivity. Qed.

Example strip_newlines :
  strip (py "a cat sitting on a mat") = py "a cat sitting on a mat"
  /\ strip [9; 10; 160; 8195; 97; 32; 98; 12288; 13]%N = [97; 32; 98]%N
  /\ strip (py "   ") = [].
Proof. repeat split. Qed.

Example startswith_image :
  startswith (py "image/png") (py "image/") = true
  /\ startswith (py "text/plain") (py "image/") = false
  /\ startswith (py "image") (py "image/") = false
  /\ startswith (py "Image/PNG") (py "image/") = false.
Proof. repeat split. Qed.

End Strings.


(** ** The world *)

Section World.

Context {U : Type}.
Implicit Types (w : world U) (c : call) (u : U).

Lemma upstream_logged l msg w : upstream (logged l msg w) = upstream w.
Proof. reflexivity. Qed.

Lemma upstream_called c w : upstream (called c w) = upstream w.
Proof. reflexivity. Qed.

Lemma upstream_with_upstream u w : upstream (with_upstream u w) = u.
Proof. reflexivity. Qed.

Lemma calls_logged l msg w : calls (logged l msg w) = calls w.
Proof. reflexivity. Qed.

Lemma calls_called c w : calls (called c w) = calls w ++ [c].
Proof. reflexivity. Qed.

Lemma calls_with_upstream u w : calls (with_upstream u w) = calls w.
Proof. reflexivity. Qed.

Lemma calls_at_vision w : calls (at_vision w) = calls w ++ [FileRead].
Proof. reflexivity. Qed.

Lemma calls_vision_called w image u1 :
  calls (vision_called w image u1)
  = calls w ++ [FileRead; ImageToText image VISION_MODEL].
Proof. unfold vision_called. cbn. now rewrite <- app_assoc. Qed.

Lemma calls_logic_called w image s u1 u2 :
  calls (logic_called w image s u1 u2)
  = calls w ++ [FileRead; ImageToText image VISION_MODEL; logic_call s].
Proof.
  unfold logic_called, at_logic, after_vision.
  rewrite calls_with_upstream, calls_called, !calls_logged,
    calls_vision_called.
  now rewrite <- app_assoc.
Qed.

Lemma calls_after_strip w image d u1 :
  calls (after_strip w image d u1)
  = calls w ++ [FileRead; ImageToText image VISION_MODEL].
Proof. unfold after_strip. now rewrite calls_logged, calls_vision_called. Qed.

Lemma calls_logic_called_of w image d u1 u2 :
  calls (logic_called_of w image d u1 u2)
  = calls w ++ [FileRead; ImageToText image VISION_MODEL; logic_call_of d].
Proof.
  unfold logic_called_of, at_logic.
  rewrite calls_with_upstream, calls_called, calls_logged,
    calls_after_strip.
  now rewrite <- app_assoc.
Qed.

Lemma call_count_app p (t1 t2 : list call) :
  call_count p (t1 ++ t2) = call_count p t1 + call_count p t2.
Proof. unfold call_count. now rewrite filter_app, length_app. Qed.

End World.

Create Rewrite HintDb world.
#[local] Hint Rewrite @upstream_logged @upstream_called
  @upstream_with_upstream @calls_logged @calls_called @calls_with_upstream
  @calls_at_vision @calls_vision_called @calls_logic_called
  @calls_after_strip @calls_logic_called_of : world.

(** ** The two stages, run on their own *)

Ltac run :=
  cbv beta iota zeta delta
      [bind ret raise lift record logger remote try_except dispatch
       isinstance negb fst snd];
  autorewrite with world.

Section Stages.

Context {U : Type}.
Variables (g : globals U) (c : client U).

(** Before [lifespan] has assigned the client, the attribute lookup on
    [None] fails inside the stage-1 [try]. *)
Lemma vision_stage_no_client w image :
  hf_client g = None ->
  vision_stage g image w
  = (Raise (HTTPException 503
              (py "Vision model service failed: "
               ++ str_of (AttributeError VNone "image_to_text"))),
     logged ERROR (py "Vision Model failed: "
                   ++ str_of (AttributeError VNone "image_to_text")) w).
Proof.
  intros H. unfold vision_stage, call_image_to_text.
  rewrite H. reflexivity.
Qed.

Hypothesis Hclient : hf_client g = Some c.

(** The call returns [v]: stage 1 ends as [v.strip()] does. *)
Lemma vision_stage_returns w image v u1 :
  image_to_text c image VISION_MODEL (upstream w) = (Ok v, u1) ->
  vision_stage g image w
  = match strip_result v with
    | Ok d =>
        (Ok d,
         logged INFO (py "Vision Model Output: " ++ format_value d)
           (with_upstream u1 (called (ImageToText image VISION_MODEL) w)))
    | Raise e =>
        if isinstance e cException then
          (Raise (HTTPException 503
                    (py "Vision model service failed: " ++ str_of e)),
           logged ERROR (py "Vision Model failed: " ++ str_of e)
             (with_upstream u1 (called (ImageToText image VISION_MODEL) w)))
        else
          (Raise e,
           with_upstream u1 (called (ImageToText image VISION_MODEL) w))
    end.
Proof.
  intros H. unfold vision_stage, call_image_to_text, value_strip.
  rewrite Hclient. run. rewrite H. run.
  destruct (strip_result v) as [d|e]; [reflexivity|].
  destruct e; reflexivity.
Qed.

Lemma vision_stage_ok w image s u1 :
  image_to_text c image VISION_MODEL (upstream w) = (Ok (VStr s), u1) ->
  vision_stage g image w
  = (Ok (VStr (strip s)),
     logged INFO (py "Vision Model Output: " ++ strip s)
       (with_upstream u1 (called (ImageToText image VISION_MODEL) w))).
Proof.
  intros H. now rewrite (vision_stage_returns w image (VStr s) u1 H).
Qed.

(** The call raises: an [Exception] becomes the stage-1 503, anything
    else passes through. *)
Lemma vision_stage_raise w image e u1 :
  image_to_text c image VISION_MODEL (upstream w) = (Raise e, u1) ->
  vision_stage g image w
  = if isinstance e cException then
      (Raise (HTTPException 503
                (py "Vision model service failed: " ++ str_of e)),
       logged ERROR (py "Vision Model failed: " ++ str_of e)
         (with_upstream u1 (called (ImageToText image VISION_MODEL) w)))
    else
      (Raise e,
       with_upstream u1 (called (ImageToText image VISION_MODEL) w)).
Proof.
  intros H. unfold vision_stage, call_image_to_text.
  rewrite Hclient. run. rewrite H.
  destruct e; reflexivity.
Qed.

Lemma logic_stage_ok w messages r ch rest u1 :
  chat_completion c LOGIC_MODEL messages max_tokens temperature (upstream w)
  = (Ok r, u1) ->
  choices r = ch :: rest ->
  logic_stage g messages w
  = (Ok (message_content (choice_message ch)),
     logged INFO (py "Logic Model response received.")
       (with_upstream u1
          (called (ChatCompletion LOGIC_MODEL messages
                                  max_tokens temperature) w))).
Proof.
  intros H Hr. unfold logic_stage, call_chat_completion, first_choice_content.
  rewrite Hclient. run. rewrite H, Hr. reflexivity.
Qed.

(** A response with no choice: [choices[0]] raises [IndexError] inside the
    stage-2 [try]. *)
Lemma logic_stage_no_choice w messages r u1 :
  chat_completion c LOGIC_MODEL messages max_tokens temperature (upstream w)
  = (Ok r, u1) ->
  choices r = [] ->
  logic_stage g messages w
  = (Raise (HTTPException 503
              (py "Logic model service failed: " ++ str_of IndexError)),
     logged ERROR (py "Logic Model failed: " ++ str_of IndexError)
       (with_upstream u1
          (called (ChatCompletion LOGIC_MODEL messages
                                  max_tokens temperature) w))).
Proof.
  intros H Hr. unfold logic_stage, call_chat_completion, first_choice_content.
  rewrite Hclient. run. rewrite H, Hr. reflexivity.
Qed.

Lemma logic_stage_raise w messages e u1 :
  chat_completion c LOGIC_MODEL messages max_tokens temperature (upstream w)
  = (Raise e, u1) ->
  logic_stage g messages w
  = if isinstance e cException then
      (Raise (HTTPException 503
                (py "Logic model service failed: " ++ str_of e)),
       logged ERROR (py "Logic Model failed: " ++ str_of e)
         (with_upstream u1
            (called (ChatCompletion LOGIC_MODEL messages
                                    max_tokens temperature) w)))
    else
      (Raise e,
       with_upstream u1
         (called (ChatCompletion LOGIC_MODEL messages
                                 max_tokens temperature) w)).
Proof.
  intros H. unfold logic_stage, call_chat_completion.
  rewrite Hclient. run. rewrite H.
  destruct e; reflexivity.
Qed.

End Stages.

(** ** Every path through the handler *)

Section Runs.

Context {U : Type}.
Variables (g : globals U) (file : UploadFile) (w : world U).

Lemma run_misconfigured :
  truthy (HF_API_KEY g) = false ->
  analyze_image g file w
  = (Raise (HTTPException 500 detail_misconfigured), w).
Proof. intros H. unfold analyze_image. rewrite H. reflexivity. Qed.

Hypothesis Hkey : truthy (HF_API_KEY g) = true.

Lemma run_no_content_type :
  content_type file = None ->
  analyze_image g file w = (Raise (AttributeError VNone "startswith"), w).
Proof.
  intros H. unfold analyze_image, content_type_startswith.
  rewrite Hkey, H. reflexivity.
Qed.

Variable ct : str.
Hypothesis Hct : content_type file = Some ct.

Lemma run_invalid_input :
  startswith ct (py "image/") = false ->
  analyze_image g file w
  = (Raise (HTTPException 400 detail_invalid_input), w).
Proof.
  intros H. unfold analyze_image, content_type_startswith.
  rewrite Hkey, Hct. run. rewrite H. reflexivity.
Qed.

Hypothesis Himage : startswith ct (py "image/") = true.

Ltac validated :=
  unfold analyze_image, content_type_startswith, file_read;
  rewrite Hkey, Hct; run; rewrite Himage; run.

(** The read fails: neither stage runs, and the outer clauses decide. *)
Lemma run_read_raise e :
  read file = Raise e ->
  analyze_image g file w
  = match e with
    | Exception _ _ =>
        (Raise (HTTPException 500 detail_internal),
         logged ERROR (py "Unexpected error: " ++ str_of e)
                (called FileRead w))
    | _ => (Raise e, called FileRead w)
    end.
Proof.
  intros Hread. validated. rewrite Hread.
  destruct e; reflexivity.
Qed.

Variable image : bytes.
Hypothesis Hread : read file = Ok image.

(** The handler's run is the run of the two stages from [at_vision w]. *)
Lemma run_stages :
  analyze_image g file w
  = match vision_stage g image (at_vision w) with
    | (Ok d, w1) =>
        match logic_stage g (user_message (format_value d)) (at_logic w1) with
        | (Ok a, w2) => (Ok (body_of d a), w2)
        | (Raise (Exception _ _ as e), w2) =>
            (Raise (HTTPException 500 detail_internal),
             logged ERROR (py "Unexpected error: " ++ str_of e) w2)
        | (Raise e, w2) => (Raise e, w2)
        end
    | (Raise (Exception _ _ as e), w1) =>
        (Raise (HTTPException 500 detail_internal),
         logged ERROR (py "Unexpected error: " ++ str_of e) w1)
    | (Raise e, w1) => (Raise e, w1)
    end.
Proof.
  validated. rewrite Hread. run.
  unfold at_vision, at_logic, user_message, body_of, detail_internal.
  destruct (vision_stage g image _) as [[d|e] w1]; run.
  - destruct (logic_stage g _ _) as [[a|e] w2]; run.
    + reflexivity.
    + destruct e; reflexivity.
  - destruct e; reflexivity.
Qed.

Lemma run_no_client :
  hf_client g = None ->
  analyze_image g file w
  = (Raise (HTTPException 503
              (py "Vision model service failed: "
               ++ str_of (AttributeError VNone "image_to_text"))),
     logged ERROR (py "Vision Model failed: "
                   ++ str_of (AttributeError VNone "image_to_text"))
            (at_vision w)).
Proof.
  intros H. rewrite run_stages, (vision_stage_no_client g _ _ H).
  reflexivity.
Qed.

Variable c : client U.
Hypothesis Hclient : hf_client g = Some c.

Lemma run_vision_raise e u1 :
  image_to_text c image VISION_MODEL (upstream w) = (Raise e, u1) ->
  analyze_image g file w
  = if isinstance e cException then
      (Raise (HTTPException 503
                (py "Vision model service failed: " ++ str_of e)),
       logged ERROR (py "Vision Model failed: " ++ str_of e)
              (vision_called w image u1))
    else (Raise e, vision_called w image u1).
Proof.
  intros H. rewrite run_stages.
  rewrite (vision_stage_raise g c Hclient (at_vision w) image e u1 H).
  destruct e; reflexivity.
Qed.

Section AnyResult.

Variables (v : value) (u1 : U).
Hypothesis Hreturns :
  image_to_text c image VISION_MODEL (upstream w) = (Ok v, u1).

(** [.strip()] raises on what stage 1 returned. *)
Lemma run_strip_raise e :
  strip_result v = Raise e ->
  analyze_image g file w
  = if isinstance e cException then
      (Raise (HTTPException 503
                (py "Vision model service failed: " ++ str_of e)),
       logged ERROR (py "Vision Model failed: " ++ str_of e)
              (vision_called w image u1))
    else (Raise e, vision_called w image u1).
Proof.
  intros H. rewrite run_stages.
  rewrite (vision_stage_returns g c Hclient (at_vision w) image v u1
             Hreturns), H.
  destruct e; reflexivity.
Qed.

Variable d : value.
Hypothesis Hstrip : strip_result v = Ok d.

Lemma run_logic_stage_of :
  analyze_image g file w
  = match logic_stage g (user_message (format_value d))
                      (at_logic (after_strip w image d u1)) with
    | (Ok a, w2) => (Ok (body_of d a), w2)
    | (Raise (Exception _ _ as e), w2) =>
        (Raise (HTTPException 500 detail_internal),
         logged ERROR (py "Unexpected error: " ++ str_of e) w2)
    | (Raise e, w2) => (Raise e, w2)
    end.
Proof.
  rewrite run_stages.
  rewrite (vision_stage_returns g c Hclient (at_vision w) image v u1
             Hreturns), Hstrip.
  reflexivity.
Qed.

Lemma run_logic_raise_of e u2 :
  chat_completion c LOGIC_MODEL (user_message (format_value d))
                  max_tokens temperature u1 = (Raise e, u2) ->
  analyze_image g file w
  = if isinstance e cException then
      (Raise (HTTPException 503
                (py "Logic model service failed: " ++ str_of e)),
       logged ERROR (py "Logic Model failed: " ++ str_of e)
              (logic_called_of w image d u1 u2))
    else (Raise e, logic_called_of w image d u1 u2).
Proof.
  intros H. rewrite run_logic_stage_of.
  rewrite (logic_stage_raise g c Hclient
             (at_logic (after_strip w image d u1)) _ e u2 H).
  destruct e; reflexivity.
Qed.

Lemma run_logic_no_choice_of r u2 :
  chat_completion c LOGIC_MODEL (user_message (format_value d))
                  max_tokens temperature u1 = (Ok r, u2) ->
  choices r = [] ->
  analyze_image g file w
  = (Raise (HTTPException 503
              (py "Logic model service failed: " ++ str_of IndexError)),
     logged ERROR (py "Logic Model failed: " ++ str_of IndexError)
            (logic_called_of w image d u1 u2)).
Proof.
  intros H Hr. rewrite run_logic_stage_of.
  rewrite (logic_stage_no_choice g c Hclient
             (at_logic (after_strip w image d u1)) _ r u2 H Hr).
  reflexivity.
Qed.

Lemma run_success_of r ch rest u2 :
  chat_completion c LOGIC_MODEL (user_message (format_value d))
                  max_tokens temperature u1 = (Ok r, u2) ->
  choices r = ch :: rest ->
  analyze_image g file w
  = (Ok (body_of d (message_content (choice_message ch))),
     logged INFO (py "Logic Model response received.")
            (logic_called_of w image d u1 u2)).
Proof.
  intros H Hr. rewrite run_logic_stage_of.
  rewrite (logic_stage_ok g c Hclient
             (at_logic (after_strip w image d u1)) _ r ch rest u2 H Hr).
  reflexivity.
Qed.

End AnyResult.

(** The same when stage 1 returned a text [s]. *)
Variables (s : str) (u1 : U).
Hypothesis Hvision :
  image_to_text c image VISION_MODEL (upstream w) = (Ok (VStr s), u1).

Lemma run_logic_stage :
  analyze_image g file w
  = match logic_stage g (user_message (strip s))
                      (at_logic (after_vision w image s u1)) with
    | (Ok a, w2) => (Ok (success_body (strip s) a), w2)
    | (Raise (Exception _ _ as e), w2) =>
        (Raise (HTTPException 500 detail_internal),
         logged ERROR (py "Unexpected error: " ++ str_of e) w2)
    | (Raise e, w2) => (Raise e, w2)
    end.
Proof.
  exact (run_logic_stage_of (VStr s) u1 Hvision (VStr (strip s)) eq_refl).
Qed.

Lemma run_logic_raise e u2 :
  chat_completion c LOGIC_MODEL (user_message (strip s))
                  max_tokens temperature u1 = (Raise e, u2) ->
  analyze_image g file w
  = if isinstance e cException then
      (Raise (HTTPException 503
                (py "Logic model service failed: " ++ str_of e)),
       logged ERROR (py "Logic Model failed: " ++ str_of e)
              (logic_called w image s u1 u2))
    else (Raise e, logic_called w image s u1 u2).
Proof.
  exact (run_logic_raise_of (VStr s) u1 Hvision (VStr (strip s)) eq_refl
           e u2).
Qed.

Lemma run_logic_no_choice r u2 :
  chat_completion c LOGIC_MODEL (user_message (strip s))
                  max_tokens temperature u1 = (Ok r, u2) ->
  choices r = [] ->
  analyze_image g file w
  = (Raise (HTTPException 503
              (py "Logic model service failed: " ++ str_of IndexError)),
     logged ERROR (py "Logic Model failed: " ++ str_of IndexError)
            (logic_called w image s u1 u2)).
Proof.
  exact (run_logic_no_choice_of (VStr s) u1 Hvision (VStr (strip s)) eq_refl
           r u2).
Qed.

Lemma run_success r ch rest u2 :
  chat_completion c LOGIC_MODEL (user_message (strip s))
                  max_tokens temperature u1 = (Ok r, u2) ->
  choices r = ch :: rest ->
  analyze_image g file w
  = (Ok (success_body (strip s) (message_content (choice_message ch))),
     logged INFO (py "Logic Model response received.")
            (logic_called w image s u1 u2)).
Proof.
  exact (run_success_of (VStr s) u1 Hvision (VStr (strip s)) eq_refl
           r ch rest u2).
Qed.

End Runs.

(** ** What holds on every path *)

Lemma fst_serve {U} (g : globals U) file w :
  fst (serve g file w) = respond (fst (analyze_image g file w)).
Proof. unfold serve. now destruct (analyze_image g file w). Qed.

Lemma snd_serve {U} (g : globals U) file w :
  snd (serve g file w) = snd (analyze_image g file w).
Proof. unfold serve. now destruct (analyze_image g file w). Qed.

Lemma Raise_HTTPException_inj {A} st d st' d' :
  @Raise A (HTTPException st d) = Raise (HTTPException st' d') ->
  st = st' /\ d = d'.
Proof. intros H. injection H as -> ->. now split. Qed.

(** Case analysis over the paths of [analyze_image g file w]: each case
    comes with the equation [Hrun] of that run. *)
Ltac handler_cases g file w :=
  let Hrun := fresh "Hrun" in
  destruct (truthy (HF_API_KEY g)) eqn:Hkey;
  [ destruct (content_type file) as [ct|] eqn:Hct;
    [ destruct (startswith ct (py "image/")) eqn:Himage;
      [ destruct (read file) as [image|e] eqn:Hread;
        [ destruct (hf_client g) as [c|] eqn:Hclient;
          [ destruct (image_to_text c image VISION_MODEL (upstream w))
              as [[v|e] u1] eqn:Hvision;
            [ destruct (strip_result v) as [desc|e] eqn:Hstrip;
              [ destruct (chat_completion c LOGIC_MODEL
                            (user_message (format_value desc))
                            max_tokens temperature u1)
                  as [[r|e] u2] eqn:Hlogic;
                [ destruct (choices r) as [|ch rest] eqn:Hchoices;
                  [ pose proof (run_logic_no_choice_of g file w Hkey ct Hct
                                  Himage image Hread c Hclient v u1 Hvision
                                  desc Hstrip r u2 Hlogic Hchoices) as Hrun
                  | pose proof (run_success_of g file w Hkey ct Hct Himage
                                  image Hread c Hclient v u1 Hvision
                                  desc Hstrip r ch rest u2 Hlogic Hchoices)
                      as Hrun ]
                | pose proof (run_logic_raise_of g file w Hkey ct Hct Himage
                                image Hread c Hclient v u1 Hvision
                                desc Hstrip e u2 Hlogic) as Hrun ]
              | pose proof (run_strip_raise g file w Hkey ct Hct Himage
                              image Hread c Hclient v u1 Hvision
                              e Hstrip) as Hrun ]
            | pose proof (run_vision_raise g file w Hkey ct Hct Himage
                            image Hread c Hclient e u1 Hvision) as Hrun ]
          | pose proof (run_no_client g file w Hkey ct Hct Himage
                          image Hread Hclient) as Hrun ]
        | pose proof (run_read_raise g file w Hkey ct Hct Himage
                        e Hread) as Hrun ]
      | pose proof (run_invalid_input g file w Hkey ct Hct Himage) as Hrun ]
    | pose proof (run_no_content_type g file w Hkey Hct) as Hrun ]
  | pose proof (run_misconfigured g file w Hkey) as Hrun ];
  rewrite Hrun.

(** One run adds to the trace the read, then the stage-1 call, then the
    stage-2 call, in that order and each at most once; the stage-2 call is
    always made with the same model, conversation shape and parameters. *)
Lemma analyze_image_trace {U} (g : globals U) file w :
  exists new,
    calls (snd (analyze_image g file w)) = calls w ++ new
    /\ trace_shape new.
Proof.
  handler_cases g file w;
    try (destruct e; cbn [isinstance]);
    cbn [snd]; autorewrite with world;
    try (exists []; split; [now rewrite app_nil_r | now left]);
    (eexists; split; [reflexivity|]); unfold trace_shape.
  all: first [ right; left; reflexivity
             | right; right; left; eexists; reflexivity
             | right; right; right; do 2 eexists; reflexivity ].
Qed.

(** Every [HTTPException] that comes out of the handler carries one of
    the three fixed details, or is a 503 with a stage prefix (unless the
    read itself raised an [HTTPException], which line 141 re-raises). *)
Lemma analyze_image_details {U} (g : globals U) file w status detail :
  (forall st d, read file <> Raise (HTTPException st d)) ->
  fst (analyze_image g file w) = Raise (HTTPException status detail) ->
  handler_detail status detail.
Proof.
  intros Hnot. unfold handler_detail.
  handler_cases g file w;
    try (destruct e; cbn [isinstance]); cbn [fst];
    intros H; try discriminate H;
    try (now elim (Hnot status_code detail0));
    apply Raise_HTTPException_inj in H as [<- <-].
  all: first [ now left
             | right; now left
             | right; right; now left
             | right; right; right; left; split;
               [reflexivity | eexists; reflexivity]
             | right; right; right; right; split;
               [reflexivity | eexists; reflexivity] ].
Qed.

(** ** Deterministic stubs *)

Section Deterministic.

Context {U : Type}.
Variable g : globals U.
Hypothesis Hdet : forall c, hf_client g = Some c -> deterministic c.

(** With a deterministic client, what a stage returns or raises does not
    depend on the world it starts from. *)
Lemma vision_stage_deterministic image (w1 w2 : world U) :
  fst (vision_stage g image w1) = fst (vision_stage g image w2).
Proof.
  destruct (hf_client g) as [c|] eqn:Hclient.
  - destruct (Hdet c eq_refl) as [Hv _].
    specialize (Hv image VISION_MODEL (upstream w1) (upstream w2)).
    destruct (image_to_text c image VISION_MODEL (upstream w1))
      as [o1 u1] eqn:H1.
    destruct (image_to_text c image VISION_MODEL (upstream w2))
      as [o2 u2] eqn:H2.
    cbn [fst] in Hv. subst o2. destruct o1 as [v|e].
    + rewrite (vision_stage_returns g c Hclient w1 image v u1 H1),
        (vision_stage_returns g c Hclient w2 image v u2 H2).
      destruct (strip_result v) as [d|e]; [reflexivity|].
      destruct (isinstance e cException); reflexivity.
    + rewrite (vision_stage_raise g c Hclient w1 image e u1 H1),
        (vision_stage_raise g c Hclient w2 image e u2 H2).
      destruct (isinstance e cException); reflexivity.
  - rewrite !vision_stage_no_client by assumption. reflexivity.
Qed.

Lemma logic_stage_deterministic messages (w1 w2 : world U) :
  fst (logic_stage g messages w1) = fst (logic_stage g messages w2).
Proof.
  destruct (hf_client g) as [c|] eqn:Hclient.
  - destruct (Hdet c eq_refl) as [_ Hl].
    specialize (Hl LOGIC_MODEL messages max_tokens temperature
                   (upstream w1) (upstream w2)).
    destruct (chat_completion c LOGIC_MODEL messages max_tokens temperature
                (upstream w1)) as [o1 u1] eqn:H1.
    destruct (chat_completion c LOGIC_MODEL messages max_tokens temperature
                (upstream w2)) as [o2 u2] eqn:H2.
    cbn [fst] in Hl. subst o2. destruct o1 as [r|e].
    + destruct (choices r) as [|ch rest] eqn:Hr.
      * rewrite (logic_stage_no_choice g c Hclient w1 messages r u1 H1 Hr),
          (logic_stage_no_choice g c Hclient w2 messages r u2 H2 Hr).
        reflexivity.
      * rewrite (logic_stage_ok g c Hclient w1 messages r ch rest u1 H1 Hr),
          (logic_stage_ok g c Hclient w2 messages r ch rest u2 H2 Hr).
        reflexivity.
    + rewrite (logic_stage_raise g c Hclient w1 messages e u1 H1),
        (logic_stage_raise g c Hclient w2 messages e u2 H2).
      destruct (isinstance e cException); reflexivity.
  - unfold logic_stage, call_chat_completion. rewrite Hclient. reflexivity.
Qed.

(** Two uploads with the same content type and the same bytes get the same
    outcome, from any two worlds. *)
Lemma analyze_image_deterministic (file1 file2 : UploadFile)
      (w1 w2 : world U) :
  content_type file1 = content_type file2 ->
  read file1 = read file2 ->
  fst (analyze_image g file1 w1) = fst (analyze_image g file2 w2).
Proof.
  intros Hct Hread.
  destruct (truthy (HF_API_KEY g)) eqn:Hkey.
  2: { now rewrite !run_misconfigured. }
  destruct (content_type file2) as [ct|] eqn:Hct2.
  2: { now rewrite !run_no_content_type. }
  destruct (startswith ct (py "image/")) eqn:Himage.
  2: { rewrite (run_invalid_input g file1 w1 Hkey ct Hct Himage),
         (run_invalid_input g file2 w2 Hkey ct Hct2 Himage).
       reflexivity. }
  destruct (read file2) as [image|e] eqn:Hread2.
  2: { rewrite (run_read_raise g file1 w1 Hkey ct Hct Himage e Hread),
         (run_read_raise g file2 w2 Hkey ct Hct2 Himage e Hread2).
       destruct e; reflexivity. }
  rewrite (run_stages g file1 w1 Hkey ct Hct Himage image Hread),
    (run_stages g file2 w2 Hkey ct Hct2 Himage image Hread2).
  pose proof (vision_stage_deterministic image (at_vision w1) (at_vision w2))
    as Hv.
  destruct (vision_stage g image (at_vision w1)) as [o1 w1'].
  destruct (vision_stage g image (at_vision w2)) as [o2 w2'].
  cbn [fst] in Hv. subst o2. destruct o1 as [d|e].
  - pose proof (logic_stage_deterministic (user_message (format_value d))
                  (at_logic w1') (at_logic w2')) as Hl.
    destruct (logic_stage g (user_message (format_value d)) (at_logic w1'))
      as [a1 w1''].
    destruct (logic_stage g (user_message (format_value d)) (at_logic w2'))
      as [a2 w2''].
    cbn [fst] in Hl. subst a2. destruct a1 as [a|e]; [reflexivity|].
    destruct e; reflexivity.
  - destruct e; reflexivity.
Qed.

End Deterministic.

(** * The claims *)

(** ** Intake and validation *)

Lemma truthy_false (k : option str) :
  truthy k = false <-> k = None \/ k = Some [].
Proof.
  destruct k as [[|c k]|]; simpl; split; intros H;
    try reflexivity; try discriminate; auto;
    destruct H as [H|H]; discriminate.
Qed.

(** C3. When the configuration secret [HF_API_KEY] is absent (unset or
    empty), every request is answered with HTTP 500 and the
    configuration-error detail, whatever the upload and its content type
    (a missing or a non-image one too, so the check comes before the
    content-type check), and the world is left as it was: no file read, no
    inference call, nothing logged. *)
Theorem missing_key_is_500 {U} (g : globals U) (file : UploadFile)
        (w : world U) :
  HF_API_KEY g = None \/ HF_API_KEY g = Some [] ->
  analyze_image g file w
  = (Raise (HTTPException 500 detail_misconfigured), w)
  /\ serve g file w
     = (Some {| status := 500;
                body := [(py "detail", VStr detail_misconfigured)] |}, w)
  /\ call_count (fun _ => true) (calls (snd (serve g file w)))
     = call_count (fun _ => true) (calls w).
Proof.
  intros Hkey. apply truthy_false in Hkey.
  pose proof (run_misconfigured g file w Hkey) as Hrun.
  unfold serve. rewrite Hrun. repeat split.
Qed.

(** C4. With the secret present, an upload whose declared content type
    does not start with [image/] is answered with HTTP 400; the file is not
    read and neither stage is called: the world is left as it was. *)
Theorem non_image_is_400 {U} (g : globals U) (file : UploadFile)
        (w : world U) (ct : str) :
  truthy (HF_API_KEY g) = true ->
  content_type file = Some ct ->
  startswith ct (py "image/") = false ->
  analyze_image g file w
  = (Raise (HTTPException 400 detail_invalid_input), w)
  /\ serve g file w
     = (Some {| status := 400;
                body := [(py "detail", VStr detail_invalid_input)] |}, w)
  /\ call_count (fun _ => true) (calls (snd (serve g file w)))
     = call_count (fun _ => true) (calls w).
Proof.
  intros Hkey Hct Hprefix.
  pose proof (run_invalid_input g file w Hkey ct Hct Hprefix) as Hrun.
  unfold serve. rewrite Hrun. repeat split.
Qed.

(** C10. With the secret present, an upload that declares no content type
    makes line 61 raise [AttributeError] before the [try] of line 67 is
    entered.  The exception leaves the handler as it is: an [Exception],
    which the outer clause would have turned into the fixed 500 had it
    been raised inside the [try].  The outcome is no [HTTPException] at
    all, so neither the 400 nor the catch-all 500, and the world is left
    as it was (nothing read, called or logged). *)
Theorem missing_content_type_escapes {U} (g : globals U) (file : UploadFile)
        (w : world U) :
  truthy (HF_API_KEY g) = true ->
  content_type file = None ->
  analyze_image g file w = (Raise (AttributeError VNone "startswith"), w)
  /\ isinstance (AttributeError VNone "startswith") cException = true
  /\ (forall status detail,
         fst (analyze_image g file w) <> Raise (HTTPException status detail))
  /\ serve g file w = (None, w).
Proof.
  intros Hkey Hct.
  pose proof (run_no_content_type g file w Hkey Hct) as Hrun.
  unfold serve. rewrite Hrun. repeat split.
  intros st d. cbn [fst]. discriminate.
Qed.

(** ** Stage failures and the success path *)

(** C1. On a request that passes validation, when the vision-stage call
    raises an error [e], the handler raises [HTTPException] 503 whose
    detail is ["Vision model service failed: "] followed by [str(e)]; the
    logic stage is not called (the trace grows by the read and the stage-1
    call only), and the detail is neither the catch-all text nor a stage-2
    one. *)
Theorem vision_failure_is_503 {U} (g : globals U) (file : UploadFile)
        (w : world U) (ct : str) (image : bytes) (c : client U)
        (e : exc) (u1 : U) :
  truthy (HF_API_KEY g) = true ->
  content_type file = Some ct ->
  startswith ct (py "image/") = true ->
  read file = Ok image ->
  hf_client g = Some c ->
  image_to_text c image VISION_MODEL (upstream w) = (Raise e, u1) ->
  isinstance e cException = true ->
  let d := py "Vision model service failed: " ++ str_of e in
  fst (analyze_image g file w) = Raise (HTTPException 503 d)
  /\ fst (serve g file w)
     = Some {| status := 503; body := [(py "detail", VStr d)] |}
  /\ substring (str_of e) d
  /\ calls (snd (serve g file w))
     = calls w ++ [FileRead; ImageToText image VISION_MODEL]
  /\ call_count is_logic_call (calls (snd (serve g file w)))
     = call_count is_logic_call (calls w)
  /\ startswith d (py "Logic model service failed: ") = false
  /\ str_eqb d detail_internal = false.
Proof.
  intros Hkey Hct Himage Hread Hclient Hraise He d.
  pose proof (run_vision_raise g file w Hkey ct Hct Himage image Hread
                c Hclient e u1 Hraise) as Hrun.
  rewrite He in Hrun.
  rewrite fst_serve, snd_serve, Hrun. cbn [fst snd respond].
  autorewrite with world.
  repeat split.
  - apply substring_app_r.
  - rewrite call_count_app. cbn. apply Nat.add_0_r.
Qed.

(** C2. When the vision stage returns a text [s] and the logic-stage call
    raises an error [e], the handler raises [HTTPException] 503 whose
    detail is ["Logic model service failed: "] followed by [str(e)]; the
    response body holds [detail] alone, neither [vision_output] nor
    [final_answer], and the detail is not a stage-1 one. *)
Theorem logic_failure_is_503 {U} (g : globals U) (file : UploadFile)
        (w : world U) (ct : str) (image : bytes) (c : client U)
        (s : str) (u1 : U) (e : exc) (u2 : U) :
  truthy (HF_API_KEY g) = true ->
  content_type file = Some ct ->
  startswith ct (py "image/") = true ->
  read file = Ok image ->
  hf_client g = Some c ->
  image_to_text c image VISION_MODEL (upstream w) = (Ok (VStr s), u1) ->
  chat_completion c LOGIC_MODEL (user_message (strip s))
                  max_tokens temperature u1 = (Raise e, u2) ->
  isinstance e cException = true ->
  let d := py "Logic model service failed: " ++ str_of e in
  fst (analyze_image g file w) = Raise (HTTPException 503 d)
  /\ fst (serve g file w)
     = Some {| status := 503; body := [(py "detail", VStr d)] |}
  /\ substring (str_of e) d
  /\ (forall r, fst (serve g file w) = Some r ->
                dict_get (body r) (py "vision_output") = None
                /\ dict_get (body r) (py "final_answer") = None)
  /\ startswith d (py "Vision model service failed: ") = false.
Proof.
  intros Hkey Hct Himage Hread Hclient Hvision Hraise He d.
  pose proof (run_logic_raise g file w Hkey ct Hct Himage image Hread
                c Hclient s u1 Hvision e u2 Hraise) as Hrun.
  rewrite He in Hrun.
  rewrite fst_serve, Hrun. cbn [fst respond].
  split; [reflexivity|]. split; [reflexivity|].
  split; [apply substring_app_r|]. split; [|reflexivity].
  intros r Hr. injection Hr as <-. split; reflexivity.
Qed.

(** C5, as amended.  When both stages succeed (the vision stage returns
    a text [s], the logic stage returns a response with a first choice),
    the response is HTTP 200 with body exactly
    [{"vision_output": v, "final_answer": a}]: [v] is [s] without the
    whitespace at its two ends, a string that neither starts nor ends with
    whitespace; [a] is the content of the first choice's message, passed
    on as it is, so a string when that content is a string and null when
    it is [None]. *)
Theorem both_stages_succeed_is_200 {U} (g : globals U) (file : UploadFile)
        (w : world U) (ct : str) (image : bytes) (c : client U)
        (s : str) (u1 : U) (r : ChatCompletionOutput)
        (ch : ChatCompletionOutputComplete)
        (rest : list ChatCompletionOutputComplete) (u2 : U) :
  truthy (HF_API_KEY g) = true ->
  content_type file = Some ct ->
  startswith ct (py "image/") = true ->
  read file = Ok image ->
  hf_client g = Some c ->
  image_to_text c image VISION_MODEL (upstream w) = (Ok (VStr s), u1) ->
  chat_completion c LOGIC_MODEL (user_message (strip s))
                  max_tokens temperature u1 = (Ok r, u2) ->
  choices r = ch :: rest ->
  let v := strip s in
  let content := message_content (choice_message ch) in
  (exists a,
      fst (analyze_image g file w)
      = Ok [ (py "vision_output", VStr v); (py "final_answer", a) ]
      /\ fst (serve g file w)
         = Some {| status := 200;
                   body := [ (py "vision_output", VStr v);
                             (py "final_answer", a) ] |}
      /\ (forall t, content = Some t -> a = VStr t)
      /\ (content = None -> a = VNone))
  /\ (exists pre post,
         s = pre ++ v ++ post
         /\ forallb isspace pre = true /\ forallb isspace post = true)
  /\ (forall x t, v = x :: t -> isspace x = false)
  /\ (forall x t, rev v = x :: t -> isspace x = false).
Proof.
  intros Hkey Hct Himage Hread Hclient Hvision Hlogic Hchoice v content.
  pose proof (run_success g file w Hkey ct Hct Himage image Hread
                c Hclient s u1 Hvision r ch rest u2 Hlogic Hchoice) as Hrun.
  split; [|split; [|split]].
  - exists (value_of_option content).
    rewrite fst_serve, Hrun. cbn [fst respond].
    split; [reflexivity|]. split; [reflexivity|]. split.
    + intros t Ht. now rewrite Ht.
    + intros Hnone. now rewrite Hnone.
  - apply strip_split.
  - apply strip_head.
  - apply strip_last.
Qed.

(** Both stage calls return, and [final_answer] is null all the same: the
    first choice of the response has no content. *)
Lemma both_stages_succeed_with_null_answer :
  image_to_text Stub.no_content Stub.png VISION_MODEL tt
  = (Ok (VStr (py "a street sign")), tt)
  /\ chat_completion Stub.no_content LOGIC_MODEL
       (user_message (py "a street sign")) max_tokens temperature tt
     = (Ok (Stub.reply None), tt)
  /\ fst (serve (Stub.configured Stub.no_content) Stub.png_upload
                (Stub.fresh tt))
     = Some {| status := 200;
               body := [ (py "vision_output", VStr (py "a street sign"));
                         (py "final_answer", VNone) ] |}
  /\ dict_get [ (py "vision_output", VStr (py "a street sign"));
                (py "final_answer", VNone) ] (py "final_answer")
     = Some VNone.
Proof. repeat split. Qed.

(** The handler does not check that the content is there: a first choice
    whose message content is [None] is returned as a 200 whose
    [final_answer] is null. *)
Remark null_content_is_passed_on :
  fst (serve (Stub.configured Stub.no_content) Stub.png_upload
             (Stub.fresh tt))
  = Some {| status := 200;
            body := [ (py "vision_output", VStr (py "a street sign"));
                      (py "final_answer", VNone) ] |}.
Proof. vm_compute. reflexivity. Qed.

(** ** Prompt construction and the stage-2 call *)

(** Once stage 1 has returned [s], stage 2 is called, once, with
    [logic_call s], whatever it then does. *)
Lemma logic_call_made {U} (g : globals U) file w ct image c s u1 :
  truthy (HF_API_KEY g) = true ->
  content_type file = Some ct ->
  startswith ct (py "image/") = true ->
  read file = Ok image ->
  hf_client g = Some c ->
  image_to_text c image VISION_MODEL (upstream w) = (Ok (VStr s), u1) ->
  calls (snd (analyze_image g file w))
  = calls w ++ [FileRead; ImageToText image VISION_MODEL; logic_call s].
Proof.
  intros Hkey Hct Himage Hread Hclient Hvision.
  destruct (chat_completion c LOGIC_MODEL (user_message (strip s))
              max_tokens temperature u1) as [[r|e] u2] eqn:Hlogic.
  - destruct (choices r) as [|ch rest] eqn:Hr.
    + rewrite (run_logic_no_choice g file w Hkey ct Hct Himage image Hread
                 c Hclient s u1 Hvision r u2 Hlogic Hr).
      cbn [snd]. now autorewrite with world.
    + rewrite (run_success g file w Hkey ct Hct Himage image Hread
                 c Hclient s u1 Hvision r ch rest u2 Hlogic Hr).
      cbn [snd]. now autorewrite with world.
  - rewrite (run_logic_raise g file w Hkey ct Hct Himage image Hread
               c Hclient s u1 Hvision e u2 Hlogic).
    destruct (isinstance e cException); cbn [snd];
      now autorewrite with world.
Qed.

(** C6. The prompt is the fixed template around the trimmed stage-1 text:
    for every text [s] the stage returns, what [strip] keeps of [s] is [s]
    without a run of whitespace at either end, it neither starts nor ends
    with whitespace, and the prompt sent to stage 2 is the same two
    literals around it, whatever [s], the upload, the world and the
    remote side are.  For ["  a red bicycle  "] the prompt contains
    ["a red bicycle"] and none of the blanks around it. *)
Theorem prompt_embeds_trimmed_output :
  (forall s,
      build_prompt (strip s)
      = py "User uploaded an image containing this text: " ++ strip s
        ++ py ". Act as a helpful assistant and answer the user's request based on this."
      /\ (exists pre post,
             s = pre ++ strip s ++ post
             /\ forallb isspace pre = true /\ forallb isspace post = true)
      /\ (forall c t, strip s = c :: t -> isspace c = false)
      /\ (forall c t, rev (strip s) = c :: t -> isspace c = false))
  /\ (forall U (g : globals U) file w ct image c s u1,
         truthy (HF_API_KEY g) = true ->
         content_type file = Some ct ->
         startswith ct (py "image/") = true ->
         read file = Ok image ->
         hf_client g = Some c ->
         image_to_text c image VISION_MODEL (upstream w)
         = (Ok (VStr s), u1) ->
         calls (snd (analyze_image g file w))
         = calls w
           ++ [FileRead; ImageToText image VISION_MODEL;
               ChatCompletion LOGIC_MODEL
                 [ {| role := py "user";
                      content := build_prompt (strip s) |} ]
                 max_tokens temperature])
  /\ (let prompt := build_prompt (strip (py "  a red bicycle  ")) in
      prompt
      = py "User uploaded an image containing this text: a red bicycle. Act as a helpful assistant and answer the user's request based on this."
      /\ contains prompt (py "a red bicycle") = true
      /\ contains prompt (py "  a red bicycle  ") = false
      /\ contains prompt (py "  a red bicycle") = false
      /\ contains prompt (py "a red bicycle ") = false).
Proof.
  split; [|split].
  - intros s. split; [|split; [|split]].
    + unfold build_prompt. do 2 f_equal.
    + apply strip_split.
    + apply strip_head.
    + apply strip_last.
  - intros U g file w ct image c s u1 Hkey Hct Himage Hread Hclient Hvision.
    apply (logic_call_made g file w ct image c s u1); assumption.
  - cbv zeta. repeat split; vm_compute; reflexivity.
Qed.

(** C7. On every request that reaches stage 2, the one logic-stage call
    is [chat_completion] with the logic model, a conversation of one
    message of role ["user"] whose content is the constructed prompt,
    [max_tokens] 500 and [temperature] 0.7; the answer is the content of
    the first choice's message of the response; and no run of the
    handler, on any input, makes a logic-stage call with another model,
    conversation shape, bound or temperature. *)
Theorem logic_call_arguments {U} (g : globals U) (file : UploadFile)
        (w : world U) (ct : str) (image : bytes) (c : client U)
        (s : str) (u1 : U) :
  truthy (HF_API_KEY g) = true ->
  content_type file = Some ct ->
  startswith ct (py "image/") = true ->
  read file = Ok image ->
  hf_client g = Some c ->
  image_to_text c image VISION_MODEL (upstream w) = (Ok (VStr s), u1) ->
  let conversation :=
    [ {| role := py "user"; content := build_prompt (strip s) |} ] in
  calls (snd (analyze_image g file w))
  = calls w ++ [FileRead; ImageToText image VISION_MODEL;
                ChatCompletion LOGIC_MODEL conversation 500 0.7%float]
  /\ (forall r ch rest u2,
         chat_completion c LOGIC_MODEL conversation 500 0.7%float u1
         = (Ok r, u2) ->
         choices r = ch :: rest ->
         fst (analyze_image g file w)
         = Ok [ (py "vision_output", VStr (strip s));
                (py "final_answer",
                 value_of_option (message_content (choice_message ch))) ])
  /\ (forall (g' : globals U) file' w' model messages mt t,
         In (ChatCompletion model messages mt t)
            (calls (snd (analyze_image g' file' w'))) ->
         In (ChatCompletion model messages mt t) (calls w')
         \/ (model = LOGIC_MODEL /\ mt = 500%Z /\ t = 0.7%float
             /\ exists d,
                 messages = [ {| role := py "user";
                                 content := build_prompt d |} ])).
Proof.
  intros Hkey Hct Himage Hread Hclient Hvision conversation.
  split; [|split].
  - apply (logic_call_made g file w ct image c s u1); assumption.
  - intros r ch rest u2 Hlogic Hr.
    rewrite (run_success g file w Hkey ct Hct Himage image Hread
               c Hclient s u1 Hvision r ch rest u2 Hlogic Hr).
    reflexivity.
  - intros g' file' w' model messages mt t Hin.
    destruct (analyze_image_trace g' file' w') as (new & Hnew & Hshape).
    rewrite Hnew in Hin. apply in_app_or in Hin as [Hin|Hin]; [now left|].
    right. destruct Hshape as [->|[->|[[i ->]|(i & d & ->)]]];
      cbn [In] in Hin.
    + contradiction.
    + destruct Hin as [Hin|[]]. discriminate.
    + destruct Hin as [Hin|[Hin|[]]]; discriminate.
    + destruct Hin as [Hin|[Hin|[Hin|[]]]]; try discriminate.
      injection Hin as <- <- <- <-.
      repeat split. now exists d.
Qed.

(** ** The outer catch-all *)



(** ** Replay *)

(** C9. With a deterministic client, two requests that carry the same
    content type and the same bytes get the same outcome and the same
    response, whatever else the uploads hold and whatever worlds (log,
    trace, remote state) they are served from; so replaying a request
    from the world its first run left behind repeats the response. *)
Theorem replay_gives_same_response {U} (g : globals U)
        (file1 file2 : UploadFile) (w1 w2 : world U) :
  (forall c, hf_client g = Some c -> deterministic c) ->
  content_type file1 = content_type file2 ->
  read file1 = read file2 ->
  fst (analyze_image g file1 w1) = fst (analyze_image g file2 w2)
  /\ fst (serve g file1 w1) = fst (serve g file2 w2)
  /\ fst (serve g file1 (snd (serve g file1 w1))) = fst (serve g file1 w1).
Proof.
  intros Hdet Hct Hread. split; [|split].
  - now apply analyze_image_deterministic.
  - rewrite !fst_serve. f_equal. now apply analyze_image_deterministic.
  - rewrite !fst_serve. f_equal. now apply analyze_image_deterministic.
Qed.

(** The hypothesis on the client is needed: against a remote side that
    answers from its own state, a replay can get another response. *)
Remark replay_needs_a_deterministic_client :
  let g := Stub.configured Stub.moody in
  let first := serve g Stub.png_upload (Stub.fresh 0) in
  fst first
  = Some {| status := 200;
            body := [ (py "vision_output", VStr (py "a cat"));
                      (py "final_answer", VStr (py "ok")) ] |}
  /\ fst (serve g Stub.png_upload (snd first))
     = Some {| status := 200;
               body := [ (py "vision_output", VStr (py "a dog"));
                         (py "final_answer", VStr (py "ok")) ] |}.
Proof. cbv zeta. split; vm_compute; reflexivity. Qed.

(** * Concrete runs

    Each theorem above that has hypotheses, applied to a stub client and
    an upload that satisfy them. *)

Section Witnesses.

Import Stub.

Lemma vision_failure_is_503_witness :
  fst (serve (configured vision_down) png_upload (fresh tt))
  = Some {| status := 503;
            body := [ (py "detail",
                       VStr (py "Vision model service failed: vision upstream timed out")) ] |}
  /\ calls (snd (serve (configured vision_down) png_upload (fresh tt)))
     = [FileRead; ImageToText png VISION_MODEL].
Proof.
  assert (H := vision_failure_is_503 (configured vision_down) png_upload
                 (fresh tt) (py "image/png") png vision_down
                 (Exception (py "InferenceTimeoutError")
                            (py "vision upstream timed out")) tt
                 eq_refl eq_refl eq_refl eq_refl eq_refl eq_refl eq_refl).
  cbv zeta in H. destruct H as (_ & Hresponse & _ & Hcalls & _).
  split; [exact Hresponse | exact Hcalls].
Defined.

Lemma logic_failure_is_503_witness :
  fst (serve (configured logic_down) png_upload (fresh tt))
  = Some {| status := 503;
            body := [ (py "detail",
                       VStr (py "Logic model service failed: 502 Bad Gateway")) ] |}.
Proof.
  assert (H := logic_failure_is_503 (configured logic_down) png_upload
                 (fresh tt) (py "image/png") png logic_down
                 (py "a street sign") tt
                 (Exception (py "HfHubHTTPError") (py "502 Bad Gateway")) tt
                 eq_refl eq_refl eq_refl eq_refl eq_refl eq_refl eq_refl
                 eq_refl).
  cbv zeta in H. destruct H as (_ & Hresponse & _).
  exact Hresponse.
Defined.

(** No secret and no content type: the answer is the 500 of the first
    check, not the [AttributeError] of the second. *)
Lemma missing_key_is_500_witness :
  serve (unconfigured cat_client) untyped_upload (fresh tt)
  = (Some {| status := 500;
             body := [ (py "detail",
                        VStr (py "Server configuration error: HF_API_KEY is missing.")) ] |},
     fresh tt).
Proof.
  assert (H := missing_key_is_500 (unconfigured cat_client) untyped_upload
                 (fresh tt) (or_introl eq_refl)).
  destruct H as (_ & Hserve & _).
  exact Hserve.
Defined.

Lemma non_image_is_400_witness :
  serve (configured cat_client) text_upload (fresh tt)
  = (Some {| status := 400;
             body := [ (py "detail",
                        VStr (py "Invalid file type. Please upload an image.")) ] |},
     fresh tt).
Proof.
  assert (H := non_image_is_400 (configured cat_client) text_upload
                 (fresh tt) (py "text/plain") eq_refl eq_refl eq_refl).
  destruct H as (_ & Hserve & _).
  exact Hserve.
Defined.

Lemma missing_content_type_escapes_witness :
  analyze_image (configured cat_client) untyped_upload (fresh tt)
  = (Raise (Exception (py "AttributeError")
              (py "'NoneType' object has no attribute 'startswith'")),
     fresh tt).
Proof.
  assert (H := missing_content_type_escapes (configured cat_client)
                 untyped_upload (fresh tt) eq_refl eq_refl).
  destruct H as (Hrun & _).
  exact Hrun.
Defined.

(** The end-to-end run of the two stubs, and the same run with the
    caption padded with blanks and a newline: the padding is gone. *)
Lemma both_stages_succeed_is_200_witness :
  fst (serve (configured cat_client) png_upload (fresh tt))
  = Some {| status := 200;
            body := [ (py "vision_output", VStr (py "a cat sitting on a mat"));
                      (py "final_answer", VStr (py "The cat is on the mat.")) ] |}
  /\ fst (serve (configured Scenario.padded_cat) png_upload (fresh tt))
     = Some {| status := 200;
               body := [ (py "vision_output", VStr (py "a cat sitting on a mat"));
                         (py "final_answer", VStr (py "The cat is on the mat.")) ] |}.
Proof.
  assert (H1 := both_stages_succeed_is_200 (configured cat_client)
                  png_upload (fresh tt) (py "image/png") png cat_client
                  (py "a cat sitting on a mat") tt
                  (reply (Some (py "The cat is on the mat.")))
                  {| choice_message :=
                       {| message_content :=
                            Some (py "The cat is on the mat.") |} |}
                  [] tt
                  eq_refl eq_refl eq_refl eq_refl eq_refl eq_refl eq_refl
                  eq_refl).
  assert (H2 := both_stages_succeed_is_200 (configured Scenario.padded_cat)
                  png_upload (fresh tt) (py "image/png") png
                  Scenario.padded_cat
                  ([32; 32]%N ++ py "a cat sitting on a mat" ++ [32; 10]%N)
                  tt
                  (reply (Some (py "The cat is on the mat.")))
                  {| choice_message :=
                       {| message_content :=
                            Some (py "The cat is on the mat.") |} |}
                  [] tt
                  eq_refl eq_refl eq_refl eq_refl eq_refl eq_refl eq_refl
                  eq_refl).
  cbv zeta in H1, H2.
  destruct H1 as ((a1 & _ & Hresponse1 & Hstr1 & _) & _).
  destruct H2 as ((a2 & _ & Hresponse2 & Hstr2 & _) & _).
  rewrite (Hstr1 _ eq_refl) in Hresponse1.
  rewrite (Hstr2 _ eq_refl) in Hresponse2.
  split; [exact Hresponse1 | exact Hresponse2].
Defined.

Lemma prompt_embeds_trimmed_output_witness :
  calls (snd (analyze_image (configured bicycle_client) png_upload
                            (fresh tt)))
  = [ FileRead; ImageToText png VISION_MODEL;
      ChatCompletion LOGIC_MODEL
        [ {| role := py "user";
             content := py "User uploaded an image containing this text: a red bicycle. Act as a helpful assistant and answer the user's request based on this." |} ]
        500 0.7%float ].
Proof.
  assert (H := prompt_embeds_trimmed_output).
  destruct H as (_ & Hcall & _).
  exact (Hcall unit (configured bicycle_client) png_upload (fresh tt)
               (py "image/png") png bicycle_client (py "  a red bicycle  ")
               tt eq_refl eq_refl eq_refl eq_refl eq_refl eq_refl).
Defined.

Lemma logic_call_arguments_witness :
  fst (analyze_image (configured bicycle_client) png_upload (fresh tt))
  = Ok [ (py "vision_output", VStr (py "a red bicycle"));
         (py "final_answer", VStr (py "It is red.")) ].
Proof.
  assert (H := logic_call_arguments (configured bicycle_client) png_upload
                 (fresh tt) (py "image/png") png bicycle_client
                 (py "  a red bicycle  ") tt
                 eq_refl eq_refl eq_refl eq_refl eq_refl eq_refl).
  cbv zeta in H. destruct H as (_ & Hanswer & _).
  exact (Hanswer (reply (Some (py "It is red.")))
                 {| choice_message :=
                      {| message_content := Some (py "It is red.") |} |}
                 [] tt eq_refl eq_refl).
Defined.


Lemma cat_client_deterministic :
  forall c, hf_client (configured cat_client) = Some c -> deterministic c.
Proof.
  intros c Hc. injection Hc as <-. split; intros; reflexivity.
Qed.

Lemma replay_gives_same_response_witness :
  fst (serve (configured cat_client) png_upload (fresh tt))
  = fst (serve (configured cat_client) renamed_upload (used tt)).
Proof.
  assert (H := replay_gives_same_response (configured cat_client)
                 png_upload renamed_upload (fresh tt) (used tt)
                 cat_client_deterministic eq_refl eq_refl).
  destruct H as (_ & Hsame & _).
  exact Hsame.
Defined.

End Witnesses.

(** * Further properties of the handler *)

Section LogAndTrace.

Context {U : Type}.
Implicit Types (w : world U) (c : call) (u : U).

Lemma log_logged l msg w : log (logged l msg w) = log w ++ [(l, msg)].
Proof. reflexivity. Qed.

Lemma log_called c w : log (called c w) = log w.
Proof. reflexivity. Qed.

Lemma log_with_upstream u w : log (with_upstream u w) = log w.
Proof. reflexivity. Qed.

Lemma error_records_app (l1 l2 : list (level * str)) :
  error_records (l1 ++ l2) = error_records l1 + error_records l2.
Proof. unfold error_records. now rewrite filter_app, length_app. Qed.

End LogAndTrace.

Create Rewrite HintDb worldlog.
#[local] Hint Rewrite @log_logged @log_called @log_with_upstream : worldlog.

Section MoreStrings.

Implicit Types s : str.

Lemma lstrip_blank s : forallb isspace s = true -> lstrip s = [].
Proof.
  induction s as [|c s IH]; simpl; [reflexivity|].
  destruct (isspace c); simpl; [exact IH | discriminate].
Qed.

Lemma strip_blank s : forallb isspace s = true -> strip s = [].
Proof.
  intros H. unfold strip, rstrip. now rewrite (lstrip_blank s H).
Qed.

(** A string with no whitespace in front is left alone by [lstrip]. *)
Lemma lstrip_fixed s :
  (forall c t, s = c :: t -> isspace c = false) -> lstrip s = s.
Proof.
  destruct s as [|c s]; simpl; [reflexivity|].
  intros H. now rewrite (H c s eq_refl).
Qed.

Lemma strip_idempotent s : strip (strip s) = strip s.
Proof.
  assert (Hl : lstrip (strip s) = strip s).
  { apply lstrip_fixed. intros c t H. exact (strip_head s c t H). }
  unfold strip at 1. rewrite Hl. unfold rstrip.
  rewrite lstrip_fixed.
  - apply rev_involutive.
  - intros c t H. exact (strip_last s c t H).
Qed.

End MoreStrings.


(** ** Failures of a stage that are not a raised call *)

Section StageEdges.

Context {U : Type}.
Variables (g : globals U) (file : UploadFile) (w : world U).
Variables (ct : str) (image : bytes).
Hypothesis Hkey : truthy (HF_API_KEY g) = true.
Hypothesis Hct : content_type file = Some ct.
Hypothesis Himage : startswith ct (py "image/") = true.
Hypothesis Hread : read file = Ok image.

(** X4. A request served while [hf_client] is still [None] (line 26)
    fails inside the stage-1 [try]: the attribute lookup raises, and the
    answer is the stage-1 503 with that text.  The file was read; no
    inference call was made. *)
Theorem no_client_is_vision_503 :
  hf_client g = None ->
  let d := py "Vision model service failed: 'NoneType' object has no attribute 'image_to_text'" in
  fst (analyze_image g file w) = Raise (HTTPException 503 d)
  /\ fst (serve g file w)
     = Some {| status := 503; body := [(py "detail", VStr d)] |}
  /\ calls (snd (analyze_image g file w)) = calls w ++ [FileRead]
  /\ call_count is_inference_call (calls (snd (analyze_image g file w)))
     = call_count is_inference_call (calls w).
Proof.
  intros Hnone d.
  pose proof (run_no_client g file w Hkey ct Hct Himage image Hread Hnone)
    as Hrun.
  rewrite fst_serve, Hrun. cbn [fst snd respond].
  unfold at_vision. autorewrite with world.
  split; [reflexivity|]. split; [reflexivity|]. split; [reflexivity|].
  rewrite call_count_app. cbn. apply Nat.add_0_r.
Qed.

Variable c : client U.
Hypothesis Hclient : hf_client g = Some c.


(** X5. An exception of the vision-stage call that is no instance of
    [Exception] (a cancellation) is caught by none of the clauses of lines
    97, 140 and 142: it leaves the handler as it is, nothing is logged at
    [ERROR], no response is made of it, and stage 2 is not called. *)
Theorem cancelled_vision_call_escapes e u1 :
  image_to_text c image VISION_MODEL (upstream w) = (Raise e, u1) ->
  isinstance e cException = false ->
  fst (analyze_image g file w) = Raise e
  /\ fst (serve g file w) = None
  /\ error_records (log (snd (analyze_image g file w)))
     = error_records (log w)
  /\ calls (snd (analyze_image g file w))
     = calls w ++ [FileRead; ImageToText image VISION_MODEL].
Proof.
  intros Hraise He.
  pose proof (run_vision_raise g file w Hkey ct Hct Himage image Hread
                c Hclient e u1 Hraise) as Hrun.
  rewrite He in Hrun.
  rewrite fst_serve, Hrun. cbn [fst snd].
  destruct e as [st d|cls txt|cls txt]; try discriminate He.
  unfold vision_called, at_vision.
  autorewrite with world worldlog.
  split; [reflexivity|]. split; [reflexivity|]. split.
  - rewrite error_records_app. cbn. apply Nat.add_0_r.
  - now rewrite <- app_assoc.
Qed.

Variables (s : str) (u1 : U).
Hypothesis Hvision :
  image_to_text c image VISION_MODEL (upstream w) = (Ok (VStr s), u1).

(** X2. When the logic stage returns a response with no choice,
    [choices[0]] on line 125 raises [IndexError] inside the stage-2 [try]:
    the answer is the stage-2 503 with that text, not a 200 and not the
    catch-all 500. *)
Theorem empty_choices_is_503 r u2 :
  chat_completion c LOGIC_MODEL (user_message (strip s))
                  max_tokens temperature u1 = (Ok r, u2) ->
  choices r = [] ->
  let d := py "Logic model service failed: list index out of range" in
  fst (analyze_image g file w) = Raise (HTTPException 503 d)
  /\ fst (serve g file w)
     = Some {| status := 503; body := [(py "detail", VStr d)] |}
  /\ calls (snd (analyze_image g file w))
     = calls w ++ [FileRead; ImageToText image VISION_MODEL; logic_call s].
Proof.
  intros Hlogic Hr d.
  pose proof (run_logic_no_choice g file w Hkey ct Hct Himage image Hread
                c Hclient s u1 Hvision r u2 Hlogic Hr) as Hrun.
  rewrite fst_serve, Hrun. cbn [fst snd respond].
  autorewrite with world.
  repeat split.
Qed.

(** X3. The content of the first choice is passed on unchecked: when it is
    [None], the answer is still a 200, with the stage-1 text and a null
    [final_answer], and nothing is logged at [ERROR]. *)
Theorem null_content_is_200_null r ch rest u2 :
  chat_completion c LOGIC_MODEL (user_message (strip s))
                  max_tokens temperature u1 = (Ok r, u2) ->
  choices r = ch :: rest ->
  message_content (choice_message ch) = None ->
  fst (analyze_image g file w)
  = Ok [ (py "vision_output", VStr (strip s)); (py "final_answer", VNone) ]
  /\ fst (serve g file w)
     = Some {| status := 200;
               body := [ (py "vision_output", VStr (strip s));
                         (py "final_answer", VNone) ] |}
  /\ error_records (log (snd (analyze_image g file w)))
     = error_records (log w).
Proof.
  intros Hlogic Hr Hnone.
  pose proof (run_success g file w Hkey ct Hct Himage image Hread
                c Hclient s u1 Hvision r ch rest u2 Hlogic Hr) as Hrun.
  rewrite fst_serve, Hrun. cbn [fst snd respond].
  unfold success_body. rewrite Hnone. cbn [value_of_option].
  split; [reflexivity|]. split; [reflexivity|].
  unfold logic_called, at_logic, after_vision, vision_called, at_vision.
  autorewrite with worldlog.
  rewrite !error_records_app. cbn. rewrite !Nat.add_0_r. reflexivity.
Qed.

(** X6. An exception of the logic-stage call that is no instance of
    [Exception] leaves the handler as it is: no 503, no 500, nothing
    logged at [ERROR]; both calls were made. *)
Theorem cancelled_logic_call_escapes e u2 :
  chat_completion c LOGIC_MODEL (user_message (strip s))
                  max_tokens temperature u1 = (Raise e, u2) ->
  isinstance e cException = false ->
  fst (analyze_image g file w) = Raise e
  /\ fst (serve g file w) = None
  /\ error_records (log (snd (analyze_image g file w)))
     = error_records (log w)
  /\ calls (snd (analyze_image g file w))
     = calls w ++ [FileRead; ImageToText image VISION_MODEL; logic_call s].
Proof.
  intros Hraise He.
  pose proof (run_logic_raise g file w Hkey ct Hct Himage image Hread
                c Hclient s u1 Hvision e u2 Hraise) as Hrun.
  rewrite He in Hrun.
  rewrite fst_serve, Hrun. cbn [fst snd].
  destruct e as [st d|cls txt|cls txt]; try discriminate He.
  autorewrite with world.
  split; [reflexivity|]. split; [reflexivity|]. split; [|reflexivity].
  unfold logic_called, at_logic, after_vision, vision_called, at_vision.
  autorewrite with worldlog.
  rewrite !error_records_app. cbn. rewrite !Nat.add_0_r. reflexivity.
Qed.

End StageEdges.

(** ** The read and what reaches stage 1 *)

(** X7. When the read raises something other than a plain [Exception] (an
    [HTTPException], re-raised by line 141, or an exception outside
    [Exception], caught by no clause), the handler raises that very
    exception: it is not turned into the fixed 500, nothing is logged and
    neither stage is called. *)
Theorem read_failure_passes_unless_plain_exception {U} (g : globals U)
        (file : UploadFile) (w : world U) (ct : str) (e : exc) :
  truthy (HF_API_KEY g) = true ->
  content_type file = Some ct ->
  startswith ct (py "image/") = true ->
  read file = Raise e ->
  (forall cls txt, e <> Exception cls txt) ->
  analyze_image g file w = (Raise e, called FileRead w)
  /\ log (snd (analyze_image g file w)) = log w
  /\ calls (snd (analyze_image g file w)) = calls w ++ [FileRead]
  /\ (forall st d, e = HTTPException st d ->
        fst (serve g file w)
        = Some {| status := st; body := [(py "detail", VStr d)] |}).
Proof.
  intros Hkey Hct Himage Hread Hnot.
  pose proof (run_read_raise g file w Hkey ct Hct Himage e Hread) as Hrun.
  assert (Hsame : analyze_image g file w = (Raise e, called FileRead w)).
  { destruct e as [st d|cls txt|cls txt];
      [exact Hrun | now elim (Hnot cls txt) | exact Hrun]. }
  rewrite fst_serve, Hsame. cbn [fst snd].
  repeat split. intros st d ->. reflexivity.
Qed.

(** Once stage 1 has returned an object that strips to [d], stage 2 is
    called, once, with the prompt around [d] as formatted. *)
Lemma logic_call_made_of {U} (g : globals U) file w ct image c v d u1 :
  truthy (HF_API_KEY g) = true ->
  content_type file = Some ct ->
  startswith ct (py "image/") = true ->
  read file = Ok image ->
  hf_client g = Some c ->
  image_to_text c image VISION_MODEL (upstream w) = (Ok v, u1) ->
  strip_result v = Ok d ->
  calls (snd (analyze_image g file w))
  = calls w ++ [FileRead; ImageToText image VISION_MODEL; logic_call_of d].
Proof.
  intros Hkey Hct Himage Hread Hclient Hvision Hstrip.
  destruct (chat_completion c LOGIC_MODEL (user_message (format_value d))
              max_tokens temperature u1) as [[r|e] u2] eqn:Hlogic.
  - destruct (choices r) as [|ch rest] eqn:Hr.
    + rewrite (run_logic_no_choice_of g file w Hkey ct Hct Himage image
                 Hread c Hclient v u1 Hvision d Hstrip r u2 Hlogic Hr).
      cbn [snd]. now autorewrite with world.
    + rewrite (run_success_of g file w Hkey ct Hct Himage image Hread
                 c Hclient v u1 Hvision d Hstrip r ch rest u2 Hlogic Hr).
      cbn [snd]. now autorewrite with world.
  - rewrite (run_logic_raise_of g file w Hkey ct Hct Himage image Hread
               c Hclient v u1 Hvision d Hstrip e u2 Hlogic).
    destruct (isinstance e cException); cbn [snd];
      now autorewrite with world.
Qed.

(** Once validation has passed, the read has returned and a client is
    there, the trace grows by the read, the stage-1 call with the bytes
    read and, at most, the stage-2 call. *)
Lemma vision_call_made_once {U} (g : globals U) file w ct image c :
  truthy (HF_API_KEY g) = true ->
  content_type file = Some ct ->
  startswith ct (py "image/") = true ->
  read file = Ok image ->
  hf_client g = Some c ->
  exists tail,
    calls (snd (analyze_image g file w))
    = calls w ++ FileRead :: ImageToText image VISION_MODEL :: tail
    /\ (tail = []
        \/ exists prompt,
             tail = [ ChatCompletion LOGIC_MODEL
                        [ {| role := py "user"; content := prompt |} ]
                        max_tokens temperature ]).
Proof.
  intros Hkey Hct Himage Hread Hclient.
  destruct (image_to_text c image VISION_MODEL (upstream w))
    as [[v|e] u1] eqn:Hvision.
  - destruct (strip_result v) as [d|e] eqn:Hstrip.
    + exists [logic_call_of d]. split.
      * apply (logic_call_made_of g file w ct image c v d u1); assumption.
      * right. now exists (build_prompt (format_value d)).
    + exists []. split; [|now left].
      rewrite (run_strip_raise g file w Hkey ct Hct Himage image Hread
                 c Hclient v u1 Hvision e Hstrip).
      destruct (isinstance e cException); cbn [snd];
        now autorewrite with world.
  - exists []. split; [|now left].
    rewrite (run_vision_raise g file w Hkey ct Hct Himage
               image Hread c Hclient e u1 Hvision).
    destruct (isinstance e cException); cbn [snd];
      now autorewrite with world.
Qed.

Lemma vision_call_made {U} (g : globals U) file w ct image c :
  truthy (HF_API_KEY g) = true ->
  content_type file = Some ct ->
  startswith ct (py "image/") = true ->
  read file = Ok image ->
  hf_client g = Some c ->
  exists tail,
    calls (snd (analyze_image g file w))
    = calls w ++ FileRead :: ImageToText image VISION_MODEL :: tail.
Proof.
  intros Hkey Hct Himage Hread Hclient.
  destruct (vision_call_made_once g file w ct image c Hkey Hct Himage Hread
              Hclient) as (tail & Htail & _).
  now exists tail.
Qed.

(** X13. The content-type check looks at the six characters of the prefix
    and at nothing else, and the bytes are not looked at: for every
    content type that continues [image/] in any way (also with nothing)
    and for all bytes (also none), the file is read once, exactly the
    bytes read are passed to [image_to_text] with the vision model, once,
    and nothing else is added to the trace but, at most, the one stage-2
    call. *)
Theorem image_bytes_are_forwarded_unchecked {U} (g : globals U)
        (file : UploadFile) (w : world U) (subtype : str) (image : bytes)
        (c : client U) :
  truthy (HF_API_KEY g) = true ->
  content_type file = Some (py "image/" ++ subtype) ->
  read file = Ok image ->
  hf_client g = Some c ->
  exists tail,
    calls (snd (analyze_image g file w))
    = calls w ++ FileRead :: ImageToText image VISION_MODEL :: tail
    /\ (tail = []
        \/ exists prompt,
             tail = [ ChatCompletion LOGIC_MODEL
                        [ {| role := py "user"; content := prompt |} ]
                        max_tokens temperature ]).
Proof.
  intros Hkey Hct Hread Hclient.
  apply (vision_call_made_once g file w (py "image/" ++ subtype) image c);
    try assumption.
  apply startswith_spec. now exists subtype.
Qed.

(** X12. A stage-1 text of whitespace only (or empty) is no special case:
    the description is the empty string, the prompt is the template
    around nothing, stage 2 is called with it, and the 200 carries an
    empty [vision_output]. *)
Theorem blank_vision_output_goes_through {U} (g : globals U)
        (file : UploadFile) (w : world U) (ct : str) (image : bytes)
        (c : client U) (s : str) (u1 : U) (r : ChatCompletionOutput)
        (ch : ChatCompletionOutputComplete)
        (rest : list ChatCompletionOutputComplete) (u2 : U) :
  truthy (HF_API_KEY g) = true ->
  content_type file = Some ct ->
  startswith ct (py "image/") = true ->
  read file = Ok image ->
  hf_client g = Some c ->
  image_to_text c image VISION_MODEL (upstream w) = (Ok (VStr s), u1) ->
  forallb isspace s = true ->
  let conversation :=
    [ {| role := py "user";
         content := py "User uploaded an image containing this text: . Act as a helpful assistant and answer the user's request based on this." |} ] in
  chat_completion c LOGIC_MODEL conversation max_tokens temperature u1
  = (Ok r, u2) ->
  choices r = ch :: rest ->
  fst (analyze_image g file w)
  = Ok [ (py "vision_output", VStr []);
         (py "final_answer",
          value_of_option (message_content (choice_message ch))) ]
  /\ calls (snd (analyze_image g file w))
     = calls w ++ [FileRead; ImageToText image VISION_MODEL;
                   ChatCompletion LOGIC_MODEL conversation
                                  max_tokens temperature].
Proof.
  intros Hkey Hct Himage Hread Hclient Hvision Hblank conversation Hlogic Hr.
  pose proof (strip_blank s Hblank) as Hs.
  assert (Hlogic' : chat_completion c LOGIC_MODEL (user_message (strip s))
                      max_tokens temperature u1 = (Ok r, u2)).
  { rewrite Hs. exact Hlogic. }
  split.
  - rewrite (run_success g file w Hkey ct Hct Himage image Hread
               c Hclient s u1 Hvision r ch rest u2 Hlogic' Hr).
    cbn [fst]. unfold success_body. now rewrite Hs.
  - rewrite (logic_call_made g file w ct image c s u1) by assumption.
    unfold logic_call. rewrite Hs. reflexivity.
Qed.

(** ** What holds of every run *)

(** X8. No call is repeated and none is made out of order: on every
    input, what one run adds to the trace is a beginning of the sequence
    read, vision call on the bytes read, logic call.  So the file is read
    at most once, the vision model is called at most once and only after
    the read, and the logic model at most once and only after the vision
    call. *)
Theorem no_call_is_repeated {U} (g : globals U) (file : UploadFile)
        (w : world U) :
  exists new,
    calls (snd (analyze_image g file w)) = calls w ++ new
    /\ (new = []
        \/ new = [FileRead]
        \/ (exists image,
               read file = Ok image
               /\ new = [FileRead; ImageToText image VISION_MODEL])
        \/ (exists image prompt,
               read file = Ok image
               /\ new = [ FileRead; ImageToText image VISION_MODEL;
                          ChatCompletion LOGIC_MODEL
                            [ {| role := py "user"; content := prompt |} ]
                            max_tokens temperature ])).
Proof.
  handler_cases g file w;
    try (destruct e; cbn [isinstance]);
    cbn [snd]; autorewrite with world;
    try (exists []; split; [now rewrite app_nil_r | now left]);
    (eexists; split; [reflexivity|]).
  all: first [ right; left; reflexivity
             | right; right; left; eexists; split; reflexivity
             | right; right; right; do 2 eexists; split; reflexivity ].
Qed.

(** X9. A returned dict has one origin: the secret was present, the file
    was read, the vision-stage call returned an object whose [strip()]
    returned the description, and the logic-stage call, made with the
    prompt around the description as formatted, returned a first choice.
    The dict holds that description and the content of that choice.  When
    the vision result is a text [s], the description is [s.strip()], and
    trimming it again changes nothing. *)
Theorem returned_dict_comes_from_both_stages {U} (g : globals U)
        (file : UploadFile) (w : world U) (d : dict) :
  fst (analyze_image g file w) = Ok d ->
  exists image c v u1 description r ch rest u2,
    truthy (HF_API_KEY g) = true
    /\ read file = Ok image
    /\ hf_client g = Some c
    /\ image_to_text c image VISION_MODEL (upstream w) = (Ok v, u1)
    /\ strip_result v = Ok description
    /\ chat_completion c LOGIC_MODEL
         [ {| role := py "user";
              content := build_prompt (format_value description) |} ]
         max_tokens temperature u1 = (Ok r, u2)
    /\ choices r = ch :: rest
    /\ d = [ (py "vision_output", description);
             (py "final_answer",
              value_of_option (message_content (choice_message ch))) ]
    /\ calls (snd (analyze_image g file w))
       = calls w ++ [FileRead; ImageToText image VISION_MODEL;
                     ChatCompletion LOGIC_MODEL
                       [ {| role := py "user";
                            content :=
                              build_prompt (format_value description) |} ]
                       max_tokens temperature]
    /\ (forall s, v = VStr s ->
          description = VStr (strip s) /\ strip (strip s) = strip s).
Proof.
  handler_cases g file w;
    try (destruct e; cbn [isinstance]); cbn [fst snd];
    intros H; try discriminate H.
  injection H as <-.
  exists image, c, v, u1, desc, r, ch, rest, u2.
  repeat split; try assumption.
  - now autorewrite with world.
  - subst v. cbn in Hstrip. now injection Hstrip as <-.
  - apply strip_idempotent.
Qed.


(** X10. Unless the read itself raises an [HTTPException], the status of
    a response is 200, 400, 500 or 503, and no other. *)
Theorem status_is_one_of_four {U} (g : globals U) (file : UploadFile)
        (w : world U) (r : response) :
  (forall st d, read file <> Raise (HTTPException st d)) ->
  fst (serve g file w) = Some r ->
  status r = 200%Z \/ status r = 400%Z \/ status r = 500%Z
  \/ status r = 503%Z.
Proof.
  intros Hnot. rewrite fst_serve.
  destruct (fst (analyze_image g file w)) as [d|e] eqn:Hout; cbn [respond].
  - intros H. injection H as <-. now left.
  - destruct e as [st d|cls txt|cls txt]; try discriminate.
    intros H. injection H as <-. cbn [status].
    destruct (analyze_image_details g file w st d Hnot Hout)
      as [[-> _]|[[-> _]|[[-> _]|[[-> _]|[-> _]]]]]; auto.
Qed.

(** A detail that starts with a stage prefix is none of the fixed
    texts. *)
Ltac other_detail H :=
  exfalso; vm_compute in H; discriminate H.

(** X11. Each fixed detail has one cause (unless the read itself raises
    an [HTTPException]): the configuration text means the secret is
    absent, the invalid-type text means the secret is present and the
    declared content type does not start with [image/], and in both cases
    the world is untouched; the catch-all text means the read raised a
    plain [Exception], so no failure of a stage ever ends in it. *)
Theorem fixed_detail_identifies_cause {U} (g : globals U)
        (file : UploadFile) (w : world U) (st : Z) (d : str) :
  (forall st' d', read file <> Raise (HTTPException st' d')) ->
  fst (analyze_image g file w) = Raise (HTTPException st d) ->
  (d = detail_misconfigured ->
     st = 500%Z /\ truthy (HF_API_KEY g) = false
     /\ snd (analyze_image g file w) = w)
  /\ (d = detail_invalid_input ->
        st = 400%Z /\ truthy (HF_API_KEY g) = true
        /\ (exists ct, content_type file = Some ct
                       /\ startswith ct (py "image/") = false)
        /\ snd (analyze_image g file w) = w)
  /\ (d = detail_internal ->
        st = 500%Z /\ truthy (HF_API_KEY g) = true
        /\ (exists cls txt, read file = Raise (Exception cls txt))
        /\ call_count is_inference_call (calls (snd (analyze_image g file w)))
           = call_count is_inference_call (calls w)).
Proof.
  handler_cases g file w;
    try (destruct e; cbn [isinstance]); cbn [fst snd];
    intros Hnot H; try discriminate H;
    try (exfalso; eapply Hnot; reflexivity);
    apply Raise_HTTPException_inj in H as [<- <-];
    (split; [|split]); intros Heq; try (other_detail Heq).
  - (* the read raised a plain Exception *)
    split; [reflexivity|]. split; [reflexivity|]. split.
    + now exists class_name, text.
    + autorewrite with world. rewrite call_count_app. cbn.
      apply Nat.add_0_r.
  - (* the content type is not an image type *)
    split; [reflexivity|]. split; [reflexivity|]. split; [|reflexivity].
    now exists ct.
  - (* the secret is absent *)
    repeat split.
Qed.

(** X14. What is logged at [ERROR]: on every input (unless the read
    itself raises an [HTTPException]) a run only appends to the log, and
    it appends one [ERROR] record exactly when it raises a stage 503 or
    the catch-all 500; the validation failures (400, configuration 500),
    the success and the exceptions that leave the handler unchanged are
    not logged at [ERROR]. *)
Theorem failures_are_logged_once {U} (g : globals U) (file : UploadFile)
        (w : world U) :
  (forall st d, read file <> Raise (HTTPException st d)) ->
  exists new,
    log (snd (analyze_image g file w)) = log w ++ new
    /\ error_records new
       = if is_logged_failure (fst (analyze_image g file w)) then 1 else 0.
Proof.
  handler_cases g file w;
    try (destruct e; cbn [isinstance]); cbn [fst snd];
    intros Hnot;
    try (exfalso; eapply Hnot; reflexivity);
    unfold logic_called_of, at_logic, after_strip, vision_called, at_vision;
    autorewrite with worldlog; rewrite <- ?app_assoc;
    first [ exists []; split; [symmetry; apply app_nil_r | reflexivity]
          | eexists; split; [reflexivity | reflexivity] ].
Qed.

(** ** Startup and shutdown *)

Section LifespanProperties.

Context {U : Type}.
Variable AsyncInferenceClient : option str -> client U.
Variable g : globals U.

Lemma lifespan_startup_run w :
  lifespan_startup AsyncInferenceClient g w
  = (Ok (started AsyncInferenceClient g),
     logged INFO (py "Hugging Face client initialized.")
       (if truthy (HF_API_KEY g) then w
        else logged WARNING
               (py "HF_API_KEY not found in environment variables. Functionality will be limited.")
               w)).
Proof.
  unfold lifespan_startup. destruct (truthy (HF_API_KEY g)); reflexivity.
Qed.

(** X15. A missing secret does not stop the startup: it logs one warning,
    builds the client all the same and returns; every request served
    afterwards is then refused with the configuration 500, untouched
    world. *)
Theorem startup_without_key_then_500 w :
  truthy (HF_API_KEY g) = false ->
  exists g' w',
    lifespan_startup AsyncInferenceClient g w = (Ok g', w')
    /\ log w'
       = log w
         ++ [ (WARNING,
               py "HF_API_KEY not found in environment variables. Functionality will be limited.");
              (INFO, py "Hugging Face client initialized.") ]
    /\ hf_client g' = Some (AsyncInferenceClient (HF_API_KEY g))
    /\ (forall file w1,
           analyze_image g' file w1
           = (Raise (HTTPException 500 detail_misconfigured), w1)).
Proof.
  intros Hkey. eexists. eexists.
  split; [apply lifespan_startup_run|]. rewrite Hkey.
  split; [|split].
  - autorewrite with worldlog. now rewrite <- app_assoc.
  - reflexivity.
  - intros file w1. now apply run_misconfigured.
Qed.

(** X16. After the startup the client is the one built from the secret,
    whatever [hf_client] held before; the startup reads no file and calls
    no model; and a request that passes validation and whose read
    returns always gets as far as the stage-1 call: it cannot fail for
    want of a client. *)
Theorem startup_installs_the_client w :
  exists g' w',
    lifespan_startup AsyncInferenceClient g w = (Ok g', w')
    /\ HF_API_KEY g' = HF_API_KEY g
    /\ hf_client g' = Some (AsyncInferenceClient (HF_API_KEY g))
    /\ calls w' = calls w
    /\ upstream w' = upstream w
    /\ (forall file w1 ct image,
           truthy (HF_API_KEY g) = true ->
           content_type file = Some ct ->
           startswith ct (py "image/") = true ->
           read file = Ok image ->
           exists tail,
             calls (snd (analyze_image g' file w1))
             = calls w1 ++ FileRead :: ImageToText image VISION_MODEL :: tail).
Proof.
  eexists. eexists. split; [apply lifespan_startup_run|].
  repeat split.
  - destruct (truthy (HF_API_KEY g)); reflexivity.
  - destruct (truthy (HF_API_KEY g)); reflexivity.
  - intros file w1 ct image Hkey Hct Himage Hread.
    apply (vision_call_made (started AsyncInferenceClient g) file w1 ct image
             (AsyncInferenceClient (HF_API_KEY g))); auto.
Qed.

Lemma lifespan_run {A} (app : globals U -> M U A) w :
  lifespan AsyncInferenceClient g app w
  = match app (started AsyncInferenceClient g) (snd (lifespan_startup AsyncInferenceClient g w)) with
    | (Ok r, w2) =>
        (Ok r, logged INFO (py "Shutting down application.") w2)
    | (Raise e, w2) => (Raise e, w2)
    end.
Proof.
  unfold lifespan, bind. rewrite lifespan_startup_run. cbn [snd].
  destruct (app (started AsyncInferenceClient g) _) as [[r|e] w2]; reflexivity.
Qed.

(** X17. What runs at the [yield] sees the started globals.  When it
    returns, line 42 logs the shutdown as the last record and its result
    is passed on; when it raises, the exception passes through and the
    shutdown is not logged, there being no [try] around the [yield].
    [lifespan] itself reads no file and calls no model. *)
Theorem shutdown_is_logged_on_return_only {A} (app : globals U -> M U A)
        w :
  let w1 := snd (lifespan_startup AsyncInferenceClient g w) in
  (forall r w2,
      app (started AsyncInferenceClient g) w1 = (Ok r, w2) ->
      lifespan AsyncInferenceClient g app w
      = (Ok r, logged INFO (py "Shutting down application.") w2))
  /\ (forall e w2,
         app (started AsyncInferenceClient g) w1 = (Raise e, w2) ->
         lifespan AsyncInferenceClient g app w = (Raise e, w2))
  /\ calls (snd (lifespan AsyncInferenceClient g app w))
     = calls (snd (app (started AsyncInferenceClient g) w1)).
Proof.
  intros w1. unfold w1. rewrite lifespan_run, lifespan_startup_run.
  cbn [snd]. split; [|split].
  - intros r w2 H. now rewrite H.
  - intros e w2 H. now rewrite H.
  - destruct (app (started AsyncInferenceClient g) _) as [[r|e] w2]; reflexivity.
Qed.

End LifespanProperties.

(** * More concrete runs *)

Section MoreWitnesses.

Import Stub Scenario.

Lemma no_client_is_vision_503_witness :
  fst (serve not_started png_upload (fresh tt))
  = Some {| status := 503;
            body := [ (py "detail",
                       VStr (py "Vision model service failed: 'NoneType' object has no attribute 'image_to_text'")) ] |}
  /\ calls (snd (analyze_image not_started png_upload (fresh tt)))
     = [FileRead].
Proof.
  assert (H := no_client_is_vision_503 not_started png_upload (fresh tt)
                 (py "image/png") png eq_refl eq_refl eq_refl eq_refl
                 eq_refl).
  cbv zeta in H. destruct H as (_ & Hresponse & Hcalls & _).
  split; [exact Hresponse | exact Hcalls].
Defined.


Lemma cancelled_vision_call_escapes_witness :
  fst (analyze_image (configured cancelled_at_vision) png_upload (fresh tt))
  = Raise CancelledError
  /\ fst (serve (configured cancelled_at_vision) png_upload (fresh tt))
     = None.
Proof.
  assert (H := cancelled_vision_call_escapes (configured cancelled_at_vision)
                 png_upload (fresh tt) (py "image/png") png
                 eq_refl eq_refl eq_refl eq_refl cancelled_at_vision eq_refl
                 CancelledError tt eq_refl eq_refl).
  destruct H as (Hout & Hresponse & _).
  split; [exact Hout | exact Hresponse].
Defined.

Lemma empty_choices_is_503_witness :
  fst (serve (configured no_choice) png_upload (fresh tt))
  = Some {| status := 503;
            body := [ (py "detail",
                       VStr (py "Logic model service failed: list index out of range")) ] |}.
Proof.
  assert (H := empty_choices_is_503 (configured no_choice) png_upload
                 (fresh tt) (py "image/png") png
                 eq_refl eq_refl eq_refl eq_refl no_choice eq_refl
                 (py "a street sign") tt eq_refl
                 {| choices := [] |} tt eq_refl eq_refl).
  cbv zeta in H. destruct H as (_ & Hresponse & _).
  exact Hresponse.
Defined.

Lemma null_content_is_200_null_witness :
  fst (analyze_image (configured no_content) png_upload (fresh tt))
  = Ok [ (py "vision_output", VStr (py "a street sign"));
         (py "final_answer", VNone) ].
Proof.
  assert (H := null_content_is_200_null (configured no_content) png_upload
                 (fresh tt) (py "image/png") png
                 eq_refl eq_refl eq_refl eq_refl no_content eq_refl
                 (py "a street sign") tt eq_refl
                 (reply None)
                 {| choice_message := {| message_content := None |} |} []
                 tt eq_refl eq_refl eq_refl).
  destruct H as (Hout & _).
  exact Hout.
Defined.

Lemma cancelled_logic_call_escapes_witness :
  fst (analyze_image (configured cancelled_at_logic) png_upload (fresh tt))
  = Raise CancelledError
  /\ calls (snd (analyze_image (configured cancelled_at_logic) png_upload
                               (fresh tt)))
     = [FileRead; ImageToText png VISION_MODEL;
        logic_call (py "a street sign")].
Proof.
  assert (H := cancelled_logic_call_escapes (configured cancelled_at_logic)
                 png_upload (fresh tt) (py "image/png") png
                 eq_refl eq_refl eq_refl eq_refl cancelled_at_logic eq_refl
                 (py "a street sign") tt eq_refl
                 CancelledError tt eq_refl eq_refl).
  destruct H as (Hout & _ & _ & Hcalls).
  split; [exact Hout | exact Hcalls].
Defined.

Lemma read_failure_passes_unless_plain_exception_witness :
  analyze_image (configured cat_client) cancelled_upload (fresh tt)
  = (Raise CancelledError, called FileRead (fresh tt)).
Proof.
  assert (Hnot : forall cls txt, CancelledError <> Exception cls txt)
    by discriminate.
  assert (H := read_failure_passes_unless_plain_exception
                 (configured cat_client) cancelled_upload (fresh tt)
                 (py "image/png") CancelledError
                 eq_refl eq_refl eq_refl eq_refl Hnot).
  destruct H as (Hrun & _).
  exact Hrun.
Defined.

(** The bare prefix as content type and no bytes at all: stage 1 is
    called with the empty bytes. *)
Lemma image_bytes_are_forwarded_unchecked_witness :
  exists tail,
    calls (snd (analyze_image (configured cat_client) empty_upload
                              (fresh tt)))
    = calls (fresh tt) ++ FileRead :: ImageToText [] VISION_MODEL :: tail
    /\ (tail = []
        \/ exists prompt,
             tail = [ ChatCompletion LOGIC_MODEL
                        [ {| role := py "user"; content := prompt |} ]
                        max_tokens temperature ]).
Proof.
  exact (image_bytes_are_forwarded_unchecked (configured cat_client)
           empty_upload (fresh tt) [] [] cat_client
           eq_refl eq_refl eq_refl eq_refl).
Defined.

Lemma blank_vision_output_goes_through_witness :
  fst (analyze_image (configured blank) png_upload (fresh tt))
  = Ok [ (py "vision_output", VStr []);
         (py "final_answer", VStr (py "I see nothing.")) ].
Proof.
  assert (H := blank_vision_output_goes_through (configured blank)
                 png_upload (fresh tt) (py "image/png") png blank
                 [32; 10; 9]%N tt (reply (Some (py "I see nothing.")))
                 {| choice_message :=
                      {| message_content := Some (py "I see nothing.") |} |}
                 [] tt
                 eq_refl eq_refl eq_refl eq_refl eq_refl eq_refl eq_refl
                 eq_refl eq_refl).
  cbv zeta in H. destruct H as (Hout & _).
  exact Hout.
Defined.

Lemma returned_dict_comes_from_both_stages_witness :
  exists v description,
    image_to_text padded_cat png VISION_MODEL tt = (Ok v, tt)
    /\ strip_result v = Ok description
    /\ calls (snd (analyze_image (configured padded_cat) png_upload
                                 (fresh tt)))
       = [FileRead; ImageToText png VISION_MODEL;
          ChatCompletion LOGIC_MODEL
            [ {| role := py "user";
                 content := build_prompt (format_value description) |} ]
            max_tokens temperature].
Proof.
  destruct (returned_dict_comes_from_both_stages (configured padded_cat)
              png_upload (fresh tt)
              [ (py "vision_output", VStr (py "a cat sitting on a mat"));
                (py "final_answer", VStr (py "The cat is on the mat.")) ]
              eq_refl)
    as (image & c & v & u1 & description & r & ch & rest & u2
        & _ & Hread & Hclient & Hvision & Hstrip & _ & _ & _ & Hcalls & _).
  injection Hread as <-. injection Hclient as <-. destruct u1.
  exists v, description.
  split; [exact Hvision|]. split; [exact Hstrip | exact Hcalls].
Defined.


Lemma status_is_one_of_four_witness :
  let r := {| status := 400;
              body := [(py "detail", VStr detail_invalid_input)] |} in
  status r = 200%Z \/ status r = 400%Z \/ status r = 500%Z
  \/ status r = 503%Z.
Proof.
  assert (Hnot : forall st d,
             read text_upload <> Raise (HTTPException st d))
    by discriminate.
  exact (status_is_one_of_four (configured cat_client) text_upload
           (fresh tt) _ Hnot eq_refl).
Defined.

Lemma fixed_detail_identifies_cause_witness :
  exists cls txt, read broken_upload = Raise (Exception cls txt).
Proof.
  assert (Hnot : forall st d,
             read broken_upload <> Raise (HTTPException st d))
    by discriminate.
  assert (H := fixed_detail_identifies_cause (configured cat_client)
                 broken_upload (fresh tt) 500 detail_internal Hnot eq_refl).
  destruct H as (_ & _ & Hinternal).
  destruct (Hinternal eq_refl) as (_ & _ & Hcause & _).
  exact Hcause.
Defined.

Lemma failures_are_logged_once_witness :
  exists new,
    log (snd (analyze_image (configured vision_down) png_upload (fresh tt)))
    = log (fresh tt) ++ new
    /\ error_records new
       = if is_logged_failure
              (fst (analyze_image (configured vision_down) png_upload
                                  (fresh tt)))
         then 1 else 0.
Proof.
  assert (Hnot : forall st d,
             read png_upload <> Raise (HTTPException st d))
    by discriminate.
  exact (failures_are_logged_once (configured vision_down) png_upload
           (fresh tt) Hnot).
Defined.

Lemma startup_without_key_then_500_witness :
  exists g' w',
    lifespan_startup make_client no_secret (fresh tt) = (Ok g', w')
    /\ log w'
       = log (fresh tt)
         ++ [ (WARNING,
               py "HF_API_KEY not found in environment variables. Functionality will be limited.");
              (INFO, py "Hugging Face client initialized.") ]
    /\ hf_client g' = Some (make_client (HF_API_KEY no_secret))
    /\ (forall file w1,
           analyze_image g' file w1
           = (Raise (HTTPException 500 detail_misconfigured), w1)).
Proof.
  exact (startup_without_key_then_500 make_client no_secret (fresh tt)
           eq_refl).
Defined.

End MoreWitnesses.
